(** * Single-turn text agents of [textarena/agents/basic_agents.py]

    A shallow embedding of the agent classes and of the retry policy they
    share, with the properties of the natural-language specification stated
    over it.

    Conventions of the embedding:
    - a Python [str] is a list of Unicode code points;
    - every Python value that can reach an agent is a [pyval];
    - an exception is its class name together with the text [str(e)] gives;
    - printing, sleeping, reading a line and calling a backend are events
      appended to a trace; the backend itself is an oracle, a function of
      the number of calls made before and of the request sent;
    - an SDK constructor is an oracle that returns its object or raises;
      what it does besides (reading the environment, traffic of its own)
      is not part of the embedding, and a handle only names the call that
      made the object;
    - a method runs in a state and error monad whose state holds the
      receiver [self], the trace and the lines waiting on standard input;
    - only exceptions that derive from [Exception] are modelled, so that
      [except Exception] catches every exception of the embedding. *)

From Stdlib Require Import ZArith NArith Ascii String List Bool Lia DecimalString.
From stdpp Require Import base option list strings gmap.

Local Open Scope Z_scope.

(** ** Python strings *)

Definition str := list N.

(** A literal of the source, as code points. *)
Definition lit (s : string) : str :=
  map N_of_ascii (list_ascii_of_string s).

(** The double quote, which a literal cannot hold. *)
Definition dquote : str := [34%N].

(** [str(n)] for an [int]. *)
Definition str_of_int (n : Z) : str :=
  lit (NilZero.string_of_int (Z.to_int n)).

(** [c.isspace()] of CPython for a single code point. *)
Definition isspace (c : N) : bool :=
  ((9 <=? c) && (c <=? 13) || (28 <=? c) && (c <=? 32)
   || (c =? 133) || (c =? 160) || (c =? 5760)
   || (8192 <=? c) && (c <=? 8202)
   || (c =? 8232) || (c =? 8233) || (c =? 8239) || (c =? 8287)
   || (c =? 12288))%N.

Fixpoint lstrip (s : str) : str :=
  match s with
  | c :: s' => if isspace c then lstrip s' else s
  | [] => []
  end.

Definition rstrip (s : str) : str := rev (lstrip (rev s)).

(** [s.strip()]. *)
Definition strip (s : str) : str := lstrip (rstrip s).

(** Neither end of the string is a whitespace character. *)
Definition surface_trimmed (s : str) : Prop :=
  (forall c, head s = Some c -> isspace c = false) /\
  (forall c, last s = Some c -> isspace c = false).

(** ** Python values and exceptions *)

Record exn := Exn { exn_class : string; exn_text : str }.

Definition ValueError (msg : str) : exn := Exn "ValueError" msg.
Definition ImportError (msg : str) : exn := Exn "ImportError" msg.
Definition TypeError (msg : str) : exn := Exn "TypeError" msg.
Definition EOFError (msg : str) : exn := Exn "EOFError" msg.
Definition OverflowError (msg : str) : exn := Exn "OverflowError" msg.

Definition result (A : Type) : Type := exn + A.

(** A value of any other type is [PyObj]: the name of its type, the text
    [format] gives for it, and what [s + v] finds for a string [s] in the
    type's [__radd__]: [NotImplemented] when the type has no [__radd__] or
    it returns [NotImplemented], otherwise the exception raised or the value
    returned. *)
Inductive pyval :=
| PyNone
| PyBool (b : bool)
| PyInt (n : Z)
| PyStr (s : str)
| PyObj (type_name : string) (repr : str) (radd : str -> reflected)
with reflected :=
| NotImplemented
| Raises (e : exn)
| Returns (v : pyval).

(** A type without [__radd__] for strings. *)
Definition no_radd : str -> reflected := fun _ => NotImplemented.

Definition isinstance_str (v : pyval) : bool :=
  match v with PyStr _ => true | _ => false end.

(** [type(v).__name__]. *)
Definition type_name_of (v : pyval) : string :=
  match v with
  | PyNone => "NoneType"
  | PyBool _ => "bool"
  | PyInt _ => "int"
  | PyStr _ => "str"
  | PyObj t _ _ => t
  end.

(** [format(v)], what an f-string puts for [{v}]. *)
Definition format (v : pyval) : str :=
  match v with
  | PyNone => lit "None"
  | PyBool true => lit "True"
  | PyBool false => lit "False"
  | PyInt n => str_of_int n
  | PyStr s => s
  | PyObj _ r _ => r
  end.

(** [format(type(v))]. *)
Definition format_type (v : pyval) : str :=
  lit "<class '" ++ lit (type_name_of v) ++ lit "'>".

(** [s + v] for a string [s]: concatenation with a string, otherwise what
    the [__radd__] of [v] gives, otherwise the [TypeError] of [str]. *)
Definition str_add (s : str) (v : pyval) : result pyval :=
  let unsupported :=
    inl (TypeError (lit "can only concatenate str (not " ++ dquote
                      ++ lit (type_name_of v) ++ dquote ++ lit ") to str")) in
  match v with
  | PyStr t => inr (PyStr (s ++ t))
  | PyObj _ _ radd =>
      match radd s with
      | NotImplemented => unsupported
      | Raises e => inl e
      | Returns r => inr r
      end
  | _ => unsupported
  end.

(** [Optional[str]] as a value. *)
Definition of_optional (o : option str) : pyval :=
  match o with Some s => PyStr s | None => PyNone end.

Abbreviation dict := (gmap string pyval).

(** ** Requests, events and the world *)

(** The object an SDK constructor returns, named by the constructor call
    that made it. [Genai_configure] names the call
    [genai.configure(api_key=...)], which returns nothing and keeps the key
    for the process. *)
Inductive handle :=
| OpenAI_client (api_key : str) (base_url : option str)
| Genai_configure (api_key : str)
| Gemini_model (model_name : str) (generation_config : dict)
| HF_tokenizer (model_name : str)
| HF_model (model_name : str) (load_in_8bit : bool) (device_map : str)
           (hf_kwargs : dict)
| HF_pipeline (max_new_tokens : Z) (model tokenizer : handle)
| Cerebras_client (api_key : option str)
| Boto3_client (service : str) (region_name : str)
| Anthropic_client.

(** One outbound call to a backend, with the arguments the source passes. *)
Inductive request :=
| ChatCompletion (client : handle) (model : str)
                 (system : pyval) (user : pyval)
                 (fixed : list (string * pyval)) (kwargs : dict)
| GenerateContent (model : handle) (prompt : str)
| TextGeneration (pipeline : handle) (prompt : pyval)
| Converse (client : handle) (model_id : str) (user : pyval)
           (system : pyval) (inference_config : dict)
| MessagesCreate (client : handle) (model : str) (max_tokens : Z)
                 (temperature : pyval) (system : pyval) (user : pyval).

Inductive event :=
| EvPrint (text : str)
| EvSleep (seconds : Z)
| EvInput (prompt : str)
| EvConstruct (h : handle)
| EvRequest (r : request).

Definition is_request (e : event) : bool :=
  match e with EvRequest _ => true | _ => false end.

(** Number of backend calls a trace records. *)
Definition invocations (tr : list event) : nat :=
  length (filter (fun e => is_request e = true) tr).

(** Delays a trace records, in order. *)
Definition sleeps (tr : list event) : list Z :=
  omap (fun e => match e with EvSleep d => Some d | _ => None end) tr.

(** The backend: what the call numbered [i] (from 0) yields for a request.
    The answer is either the text field the source extracts from the
    response, before trimming, or the exception raised anywhere between
    evaluating the call and extracting that field. *)
Definition backend := nat -> request -> result str.

(** ** The monad of methods *)

Record state (O : Type) := State {
  self : O;
  trace : list event;
  stdin : list str
}.
Arguments State {O} _ _ _.
Arguments self {O} _.
Arguments trace {O} _.
Arguments stdin {O} _.

Definition M (O A : Type) : Type := state O -> result A * state O.

Definition ret {O A} (x : A) : M O A := fun st => (inr x, st).

Definition raise {O A} (e : exn) : M O A := fun st => (inl e, st).

Definition bind {O A B} (m : M O A) (k : A -> M O B) : M O B :=
  fun st =>
    match m st with
    | (inr x, st') => k x st'
    | (inl e, st') => (inl e, st')
    end.

(** [try: m except Exception as e: h e]. *)
Definition try_except {O A} (m : M O A) (h : exn -> M O A) : M O A :=
  fun st =>
    match m st with
    | (inr x, st') => (inr x, st')
    | (inl e, st') => h e st'
    end.

Declare Scope py_scope.
Delimit Scope py_scope with py.
Notation "x <- m ;; k" := (bind m (fun x => k))
  (at level 100, m at next level, right associativity) : py_scope.
Notation "m ;; k" := (bind m (fun _ => k))
  (at level 100, right associativity) : py_scope.
Local Open Scope py_scope.

Definition get_self {O} : M O O := fun st => (inr (self st), st).

Definition emit {O} (e : event) : M O unit :=
  fun st => (inr tt, State (self st) (trace st ++ [e]) (stdin st)).

Definition print {O} (text : str) : M O unit := emit (EvPrint text).

(** The longest delay, in whole seconds, whose nanoseconds fit the 64-bit
    time of CPython. *)
Definition max_sleep_seconds : Z := 9223372036.

(** What [time.sleep(seconds)] raises for an [int] instead of sleeping:
    [OverflowError] when the nanoseconds do not fit, [ValueError] when the
    delay is negative. *)
Definition sleep_error (seconds : Z) : option exn :=
  if (seconds <? - max_sleep_seconds) || (max_sleep_seconds <? seconds)
  then Some (OverflowError
               (lit "timestamp too large to convert to C _PyTime_t"))
  else if seconds <? 0
  then Some (ValueError (lit "sleep length must be non-negative"))
  else None.

(** [time.sleep(seconds)]. *)
Definition sleep {O} (seconds : Z) : M O unit :=
  match sleep_error seconds with
  | Some e => raise e
  | None => emit (EvSleep seconds)
  end.

(** [input(prompt)]: the next line of standard input without its newline;
    [EOFError] when there is none. *)
Definition input {O} (prompt : str) : M O str :=
  emit (EvInput prompt) ;;
  fun st =>
    match stdin st with
    | line :: rest => (inr line, State (self st) (trace st) rest)
    | [] => (inl (EOFError (lit "EOF when reading a line")), st)
    end.

(** One call to the backend. *)
Definition invoke {O} (be : backend) (r : request) : M O str :=
  fun st =>
    let st' := State (self st) (trace st ++ [EvRequest r]) (stdin st) in
    (be (invocations (trace st)) r, st').

Definition when {O} (b : bool) (m : M O unit) : M O unit :=
  if b then m else ret tt.

(** ** Construction-time environment *)

(** [os.environ], and which modules an [import] finds. *)
Record pyenv := PyEnv {
  environ : gmap string str;
  importable : string -> bool
}.

(** What an SDK constructor does when asked for a handle: [None] when it
    returns the handle, [Some e] when it raises. *)
Definition sdk := handle -> option exn.

Definition getenv (env : pyenv) (name : string) : option str :=
  environ env !! name.

(** [not api_key] for the result of [os.getenv]. *)
Definition falsy (o : option str) : bool :=
  match o with
  | None => true
  | Some [] => true
  | Some (_ :: _) => false
  end.

Definition construct {O} (lib : sdk) (h : handle) : M O handle :=
  emit (EvConstruct h) ;;
  match lib h with
  | Some e => raise e
  | None => ret h
  end.

Definition nl : str := [10%N].

Definition STANDARD_GAME_PROMPT : str :=
  lit "You are a competitive game player. Make sure you read the game instructions carefully, and always follow the required format.".

Definition float_0_9 : pyval := PyObj "float" (lit "0.9") no_radd.

(** ** The retry loop

    The four classes that retry carry the same [_retry_request]; it is
    written once here, over the class's [_make_request] and the flag that
    says whether the loop echoes a successful exchange. *)

(** [range(lo, hi)]. *)
Definition range (lo hi : Z) : list Z :=
  map (fun i => lo + Z.of_nat i) (seq 0 (Z.to_nat (hi - lo))).

Section RetryLoop.
Context {O : Type}.
Variable make_request : str -> M O str.
Variable echo : O -> bool.
Variable observation : str.
Variables retries delay : Z.

Definition attempt_failed (attempt : Z) (e : exn) : str :=
  lit "Attempt " ++ str_of_int attempt ++ lit " failed with error: "
    ++ exn_text e.

Definition exchange (response : str) : str :=
  nl ++ lit "Observation: " ++ observation ++ nl ++ lit "Response: "
    ++ response.

Fixpoint retry_loop (attempts : list Z) (last_exception : option exn)
  : M O str :=
  match attempts with
  | attempt :: rest =>
      try_except
        (response <- make_request observation ;;
         s <- get_self ;;
         when (echo s) (print (exchange response)) ;;
         ret response)
        (fun e =>
           print (attempt_failed attempt e) ;;
           when (attempt <? retries) (sleep delay) ;;
           retry_loop rest (Some e))
  | [] =>
      match last_exception with
      | Some e => raise e
      | None =>
          raise (TypeError (lit "exceptions must derive from BaseException"))
      end
  end.

Definition retry_request : M O str :=
  retry_loop (range 1 (retries + 1)) None.
End RetryLoop.

Definition not_a_string (observation : pyval) : exn :=
  ValueError (lit "Observation must be a string. Received type: "
                ++ format_type observation).

(** ** The agent classes *)

Module HumanAgent.
Record t := Build { }.

Definition __init__ : M unit t := ret Build.

Definition __call__ (observation : pyval) : M t str :=
  print (nl ++ nl ++ lit "+++ +++ +++") ;;
  input (lit "Current observations: " ++ format observation ++ nl
           ++ lit "Please enter the action: ").
End HumanAgent.

Module OpenRouterAgent.
Record t := Build {
  model_name : str;
  verbose : bool;
  system_prompt : option str;
  kwargs : dict;
  client : handle
}.

Definition __init__ (env : pyenv) (lib : sdk) (model_name : str)
    (system_prompt : option str) (verbose : bool) (kwargs : dict)
  : M unit t :=
  if negb (importable env "openai" && importable env "openai._exceptions")
  then raise (ImportError (lit "OpenAI package is required for OpenRouterAgent. Install it with: pip install openai"))
  else
    let api_key := getenv env "OPENROUTER_API_KEY" in
    if falsy api_key
    then raise (ValueError (lit "OpenRouter API key not found. Please set the OPENROUTER_API_KEY environment variable."))
    else
      client <- construct lib
        (OpenAI_client (default [] api_key)
           (Some (lit "https://openrouter.ai/api/v1"))) ;;
      ret (Build model_name verbose system_prompt kwargs client).

Definition build_request (s : t) (observation : str) : request :=
  ChatCompletion (client s) (model_name s)
    (of_optional (system_prompt s)) (PyStr observation)
    [("n"%string, PyInt 1); ("stop"%string, PyNone)] (kwargs s).

Definition _make_request (be : backend) (observation : str) : M t str :=
  s <- get_self ;;
  content <- invoke be (build_request s observation) ;;
  ret (strip content).

Definition _retry_request (be : backend) (observation : str)
    (retries delay : Z) : M t str :=
  retry_request (_make_request be) verbose observation retries delay.

Definition __call__ (be : backend) (observation : pyval) : M t str :=
  match observation with
  | PyStr s => _retry_request be s 3 5
  | _ => raise (not_a_string observation)
  end.
End OpenRouterAgent.

Module GeminiAgent.
Record t := Build {
  model_name : str;
  system_prompt : option str;
  verbose : bool;
  generation_config : dict;
  model : handle
}.

Definition default_generation_config : dict :=
  {[ "temperature"%string := PyInt 1;
     "top_p"%string := PyObj "float" (lit "0.95") no_radd;
     "top_k"%string := PyInt 40;
     "max_output_tokens"%string := PyInt 8192;
     "response_mime_type"%string := PyStr (lit "text/plain") ]}.

Definition __init__ (env : pyenv) (lib : sdk) (model_name : str)
    (system_prompt : option str) (verbose : bool)
    (generation_config : option dict) : M unit t :=
  if negb (importable env "google.generativeai")
  then raise (ImportError (lit "Google Generative AI package is required for GeminiAgent. Install it with: pip install google-generativeai"))
  else
    let api_key := getenv env "GEMINI_API_KEY" in
    if falsy api_key
    then raise (ValueError (lit "Gemini API key not found. Please set the GEMINI_API_KEY environment variable."))
    else
      let generation_config :=
        default default_generation_config generation_config in
      construct lib (Genai_configure (default [] api_key)) ;;
      model <- construct lib (Gemini_model model_name generation_config) ;;
      ret (Build model_name system_prompt verbose generation_config model).

Definition build_request (s : t) (observation : str) : request :=
  GenerateContent (model s)
    (lit "Instructions: " ++ format (of_optional (system_prompt s))
       ++ nl ++ nl ++ observation).

Definition _make_request (be : backend) (observation : str) : M t str :=
  s <- get_self ;;
  text <- invoke be (build_request s observation) ;;
  when (verbose s)
    (print (nl ++ lit "Observation: " ++ observation ++ nl
              ++ lit "Response: " ++ text)) ;;
  ret (strip text).

Definition _retry_request (be : backend) (observation : str)
    (retries delay : Z) : M t str :=
  retry_request (_make_request be) (fun _ => false) observation
    retries delay.

Definition __call__ (be : backend) (observation : pyval) : M t str :=
  match observation with
  | PyStr s => _retry_request be s 3 5
  | _ => raise (not_a_string observation)
  end.
End GeminiAgent.

Module OpenAIAgent.
Record t := Build {
  model_name : str;
  system_prompt : option str;
  verbose : bool;
  kwargs : dict;
  client : handle
}.

Definition __init__ (env : pyenv) (lib : sdk) (model_name : str)
    (system_prompt : option str) (verbose : bool)
    (api_key : option str) (base_url : option str) (kwargs : dict)
  : M unit t :=
  if negb (importable env "openai")
  then raise (ImportError (lit "OpenAI package is required for OpenAIAgent. Install it with: pip install openai"))
  else
    key <- match api_key with
           | Some k => ret k
           | None =>
               let api_key := getenv env "OPENAI_API_KEY" in
               if falsy api_key
               then raise (ValueError (lit "OpenAI API key not found. Please set the OPENAI_API_KEY environment variable."))
               else ret (default [] api_key)
           end ;;
    client <- construct lib (OpenAI_client key base_url) ;;
    ret (Build model_name system_prompt verbose kwargs client).

Definition build_request (s : t) (observation : str) : request :=
  ChatCompletion (client s) (model_name s)
    (of_optional (system_prompt s)) (PyStr observation)
    [("n"%string, PyInt 1); ("stop"%string, PyNone)] (kwargs s).

Definition _make_request (be : backend) (observation : str) : M t str :=
  s <- get_self ;;
  content <- invoke be (build_request s observation) ;;
  ret (strip content).

Definition _retry_request (be : backend) (observation : str)
    (retries delay : Z) : M t str :=
  retry_request (_make_request be) verbose observation retries delay.

Definition __call__ (be : backend) (observation : pyval) : M t str :=
  match observation with
  | PyStr s => _retry_request be s 3 5
  | _ => raise (not_a_string observation)
  end.
End OpenAIAgent.

Module HFLocalAgent.
Record t := Build {
  tokenizer : handle;
  model : handle;
  system_prompt : str;
  pipeline : handle
}.

Definition __init__ (env : pyenv) (lib : sdk) (model_name : str)
    (device : str) (quantize : bool) (max_new_tokens : Z)
    (hf_kwargs : option dict) : M unit t :=
  if negb (importable env "transformers")
  then raise (ImportError (lit "Transformers library is required for HFLocalAgent. Install it with: pip install transformers"))
  else
    tokenizer <- construct lib (HF_tokenizer model_name) ;;
    match hf_kwargs with
    | None =>
        raise (TypeError (lit "argument after ** must be a mapping, not NoneType"))
    | Some kw =>
        model <- construct lib (HF_model model_name quantize device kw) ;;
        pipeline <- construct lib
          (HF_pipeline max_new_tokens model tokenizer) ;;
        ret (Build tokenizer model STANDARD_GAME_PROMPT pipeline)
    end.

(** [prompt + observation] for a [str] on the left. *)
Definition concat (prompt : str) (observation : pyval) : M t pyval :=
  match str_add prompt observation with
  | inr v => ret v
  | inl e => raise e
  end.

Definition build_request (s : t) (prompt : pyval) : request :=
  TextGeneration (pipeline s) prompt.

Definition __call__ (be : backend) (observation : pyval) : M t str :=
  try_except
    (s <- get_self ;;
     prompt <- concat (system_prompt s ++ nl) observation ;;
     generated_text <- invoke be (build_request s prompt) ;;
     ret (strip generated_text))
    (fun e => ret (lit "An error occurred: " ++ exn_text e)).
End HFLocalAgent.

Module CerebrasAgent.
Record t := Build {
  model_name : str;
  client : handle;
  system_prompt : str
}.

Definition __init__ (env : pyenv) (lib : sdk) (model_name : str)
    (system_prompt : option str) : M unit t :=
  if negb (importable env "cerebras.cloud.sdk")
  then raise (ImportError (lit "Cerebras SDK is required for CerebrasAgent. Install it with: pip install cerebras-cloud-sdk"))
  else
    client <- construct lib
      (Cerebras_client (getenv env "CEREBRAS_API_KEY")) ;;
    ret (Build model_name client
           (default (lit "You are a competitive game player. Make sure you read the game instructions carefully, and always follow the required format.") system_prompt)).

Definition build_request (s : t) (observation : pyval) : request :=
  ChatCompletion (client s) (model_name s)
    (PyStr (system_prompt s)) observation
    [("top_p"%string, float_0_9); ("temperature"%string, float_0_9)] ∅.

Definition __call__ (be : backend) (observation : pyval) : M t str :=
  try_except
    (s <- get_self ;;
     content <- invoke be (build_request s observation) ;;
     ret (strip content))
    (fun e => ret (lit "An error occurred: " ++ exn_text e)).
End CerebrasAgent.

Module AWSBedrockAgent.
Record t := Build {
  model_id : str;
  region_name : str;
  system_prompt : option str;
  verbose : bool;
  kwargs : dict;
  client : handle
}.

Definition __init__ (env : pyenv) (lib : sdk) (model_id : str)
    (region_name : str) (system_prompt : option str) (verbose : bool)
    (kwargs : dict) : M unit t :=
  if negb (importable env "boto3" && importable env "botocore.exceptions")
  then raise (ImportError (lit "Boto3 is required for AWSBedrockAgent. Install it with: pip install boto3"))
  else
    client <- construct lib
      (Boto3_client (lit "bedrock-runtime") region_name) ;;
    ret (Build model_id region_name system_prompt verbose kwargs client).

(** [{"maxTokens": 512, "temperature": 0.9, "topP": 0.9, **self.kwargs}]:
    an entry of [kwargs] replaces the default of the same key. *)
Definition inference_config (s : t) : dict :=
  kwargs s ∪ {[ "maxTokens"%string := PyInt 512;
                "temperature"%string := float_0_9;
                "topP"%string := float_0_9 ]}.

Definition build_request (s : t) (observation : str) : request :=
  Converse (client s) (model_id s) (PyStr observation)
    (of_optional (system_prompt s)) (inference_config s).

Definition _make_request (be : backend) (observation : str) : M t str :=
  s <- get_self ;;
  try_except
    (text <- invoke be (build_request s observation) ;;
     let response_text := strip text in
     when (verbose s)
       (print (nl ++ lit "Observation: " ++ observation ++ nl
                 ++ lit "Response: " ++ response_text)) ;;
     ret response_text)
    (fun e =>
       ret (lit "ERROR: Can't invoke '" ++ model_id s
              ++ lit "'. Reason: " ++ exn_text e)).

Definition __call__ (be : backend) (observation : pyval) : M t str :=
  match observation with
  | PyStr s => _make_request be s
  | _ => raise (not_a_string observation)
  end.
End AWSBedrockAgent.

Module AnthropicAgent.
Record t := Build {
  model_name : str;
  system_prompt : option str;
  max_tokens : Z;
  temperature : pyval;
  verbose : bool;
  client : handle
}.

Definition __init__ (env : pyenv) (lib : sdk) (model_name : str)
    (system_prompt : option str) (max_tokens : Z) (temperature : pyval)
    (verbose : bool) : M unit t :=
  if negb (importable env "anthropic")
  then raise (ImportError (lit "Anthropic package is required for AnthropicAgent. Install it with: pip install anthropic"))
  else
    client <- construct lib Anthropic_client ;;
    ret (Build model_name system_prompt max_tokens temperature verbose
           client).

Definition build_request (s : t) (observation : str) : request :=
  MessagesCreate (client s) (model_name s) (max_tokens s) (temperature s)
    (of_optional (system_prompt s)) (PyStr observation).

Definition _make_request (be : backend) (observation : str) : M t str :=
  s <- get_self ;;
  text <- invoke be (build_request s observation) ;;
  ret (strip text).

Definition _retry_request (be : backend) (observation : str)
    (retries delay : Z) : M t str :=
  retry_request (_make_request be) verbose observation retries delay.

Definition __call__ (be : backend) (observation : pyval) : M t str :=
  match observation with
  | PyStr s => _retry_request be s 3 5
  | _ => raise (not_a_string observation)
  end.
End AnthropicAgent.

(** ** The agents as one type *)

Inductive agent :=
| Human (a : HumanAgent.t)
| OpenRouter (a : OpenRouterAgent.t)
| Gemini (a : GeminiAgent.t)
| OpenAI (a : OpenAIAgent.t)
| HFLocal (a : HFLocalAgent.t)
| Cerebras (a : CerebrasAgent.t)
| AWSBedrock (a : AWSBedrockAgent.t)
| Anthropic (a : AnthropicAgent.t).

(** What is outside an agent: the trace so far and standard input. *)
Record world := World {
  events : list event;
  lines : list str
}.

(** What a call leaves: its result, the receiver and the world. *)
Record outcome := Outcome {
  returned : result str;
  receiver : agent;
  after : world
}.

Definition run {O} (wrap : O -> agent) (m : M O str) (a : O) (w : world)
  : outcome :=
  let '(r, st) := m (State a (events w) (lines w)) in
  Outcome r (wrap (self st)) (World (trace st) (stdin st)).

(** [agent(observation)]. *)
Definition act (be : backend) (a : agent) (observation : pyval) (w : world)
  : outcome :=
  match a with
  | Human s => run Human (HumanAgent.__call__ observation) s w
  | OpenRouter s => run OpenRouter (OpenRouterAgent.__call__ be observation) s w
  | Gemini s => run Gemini (GeminiAgent.__call__ be observation) s w
  | OpenAI s => run OpenAI (OpenAIAgent.__call__ be observation) s w
  | HFLocal s => run HFLocal (HFLocalAgent.__call__ be observation) s w
  | Cerebras s => run Cerebras (CerebrasAgent.__call__ be observation) s w
  | AWSBedrock s => run AWSBedrock (AWSBedrockAgent.__call__ be observation) s w
  | Anthropic s => run Anthropic (AnthropicAgent.__call__ be observation) s w
  end.

(** [agent._retry_request(observation, retries, delay)] for the classes that
    have the method. *)
Definition retry (be : backend) (a : agent) (observation : str)
    (retries delay : Z) (w : world) : option outcome :=
  match a with
  | OpenRouter s =>
      Some (run OpenRouter
              (OpenRouterAgent._retry_request be observation retries delay) s w)
  | Gemini s =>
      Some (run Gemini
              (GeminiAgent._retry_request be observation retries delay) s w)
  | OpenAI s =>
      Some (run OpenAI
              (OpenAIAgent._retry_request be observation retries delay) s w)
  | Anthropic s =>
      Some (run Anthropic
              (AnthropicAgent._retry_request be observation retries delay) s w)
  | _ => None
  end.

Definition retrying (a : agent) : bool :=
  match a with
  | OpenRouter _ | Gemini _ | OpenAI _ | Anthropic _ => true
  | _ => false
  end.

(** The request an agent sends for an observation that is a string. *)
Definition request_of (a : agent) (observation : str) : option request :=
  match a with
  | Human _ => None
  | OpenRouter s => Some (OpenRouterAgent.build_request s observation)
  | Gemini s => Some (GeminiAgent.build_request s observation)
  | OpenAI s => Some (OpenAIAgent.build_request s observation)
  | HFLocal s =>
      Some (HFLocalAgent.build_request s
              (PyStr ((HFLocalAgent.system_prompt s ++ nl) ++ observation)))
  | Cerebras s => Some (CerebrasAgent.build_request s (PyStr observation))
  | AWSBedrock s => Some (AWSBedrockAgent.build_request s observation)
  | Anthropic s => Some (AnthropicAgent.build_request s observation)
  end.

Inductive kind :=
| KHuman | KOpenRouter | KGemini | KOpenAI
| KHFLocal | KCerebras | KAWSBedrock | KAnthropic.

Definition kind_of (a : agent) : kind :=
  match a with
  | Human _ => KHuman
  | OpenRouter _ => KOpenRouter
  | Gemini _ => KGemini
  | OpenAI _ => KOpenAI
  | HFLocal _ => KHFLocal
  | Cerebras _ => KCerebras
  | AWSBedrock _ => KAWSBedrock
  | Anthropic _ => KAnthropic
  end.

(** ** What a trace shows of calls and delays *)

Inductive tick :=
| Call
| Wait (seconds : Z).

Definition tick_of (e : event) : option tick :=
  match e with
  | EvRequest _ => Some Call
  | EvSleep d => Some (Wait d)
  | _ => None
  end.

(** The backend calls and the delays of a trace, in the order they
    happened. *)
Definition timeline (tr : list event) : list tick := omap tick_of tr.

(** [j] calls with a delay of [d] after each of them but the last. *)
Definition schedule (d : Z) (j : nat) : list tick :=
  concat (replicate (j - 1) [Call; Wait d]) ++ [Call].

Definition is_wait (t : tick) : bool :=
  match t with Wait _ => true | Call => false end.

(** The calls numbered [c], [c+1], ..., [c+n-1] all fail for [r]. *)
Definition fails_from (be : backend) (r : request) (c n : nat) : Prop :=
  forall i, (i < n)%nat -> exists e, be (c + i)%nat r = inl e.

(** ** Construction of any agent *)

Inductive arguments :=
| NewHuman
| NewOpenRouter (model_name : str) (system_prompt : option str)
                (verbose : bool) (kwargs : dict)
| NewGemini (model_name : str) (system_prompt : option str)
            (verbose : bool) (generation_config : option dict)
| NewOpenAI (model_name : str) (system_prompt : option str)
            (verbose : bool) (api_key : option str) (base_url : option str)
            (kwargs : dict)
| NewHFLocal (model_name : str) (device : str) (quantize : bool)
             (max_new_tokens : Z) (hf_kwargs : option dict)
| NewCerebras (model_name : str) (system_prompt : option str)
| NewAWSBedrock (model_id : str) (region_name : str)
                (system_prompt : option str) (verbose : bool) (kwargs : dict)
| NewAnthropic (model_name : str) (system_prompt : option str)
               (max_tokens : Z) (temperature : pyval) (verbose : bool).

Definition class_of (args : arguments) : kind :=
  match args with
  | NewHuman => KHuman
  | NewOpenRouter _ _ _ _ => KOpenRouter
  | NewGemini _ _ _ _ => KGemini
  | NewOpenAI _ _ _ _ _ _ => KOpenAI
  | NewHFLocal _ _ _ _ _ => KHFLocal
  | NewCerebras _ _ => KCerebras
  | NewAWSBedrock _ _ _ _ _ => KAWSBedrock
  | NewAnthropic _ _ _ _ _ => KAnthropic
  end.

Definition init {O} (wrap : O -> agent) (m : M unit O)
  : result agent * list event :=
  let '(r, st) := m (State tt [] []) in
  (match r with inl e => inl e | inr a => inr (wrap a) end, trace st).

(** [Class(args)]: the agent or the exception, and the events of the
    constructor. *)
Definition new (env : pyenv) (lib : sdk) (args : arguments)
  : result agent * list event :=
  match args with
  | NewHuman => init Human HumanAgent.__init__
  | NewOpenRouter m p v kw =>
      init OpenRouter (OpenRouterAgent.__init__ env lib m p v kw)
  | NewGemini m p v g =>
      init Gemini (GeminiAgent.__init__ env lib m p v g)
  | NewOpenAI m p v k u kw =>
      init OpenAI (OpenAIAgent.__init__ env lib m p v k u kw)
  | NewHFLocal m d q n kw =>
      init HFLocal (HFLocalAgent.__init__ env lib m d q n kw)
  | NewCerebras m p =>
      init Cerebras (CerebrasAgent.__init__ env lib m p)
  | NewAWSBedrock m r p v kw =>
      init AWSBedrock (AWSBedrockAgent.__init__ env lib m r p v kw)
  | NewAnthropic m p t c v =>
      init Anthropic (AnthropicAgent.__init__ env lib m p t c v)
  end.

(** The environment variable a class hands to [os.getenv]. *)
Definition credential_variable (k : kind) : option string :=
  match k with
  | KOpenRouter => Some "OPENROUTER_API_KEY"%string
  | KGemini => Some "GEMINI_API_KEY"%string
  | KOpenAI => Some "OPENAI_API_KEY"%string
  | KCerebras => Some "CEREBRAS_API_KEY"%string
  | _ => None
  end.

(** The two exceptions the constructors raise themselves. *)
Definition configuration_error (e : exn) : Prop :=
  exn_class e = "ValueError"%string \/ exn_class e = "ImportError"%string.

(** The constructor checks the variable itself: always for OpenRouter and
    Gemini, for OpenAI only when no [api_key] argument is given. *)
Definition checks_credential (args : arguments) : bool :=
  match args with
  | NewOpenRouter _ _ _ _ | NewGemini _ _ _ _ => true
  | NewOpenAI _ _ _ None _ _ => true
  | _ => false
  end.

(** ** Properties named by the specification *)

(** An agent turns a failed first call into an action: one call, no delay,
    no exception, and a string that ends with the exception's text. *)
Definition converts_failure (a : agent) : Prop :=
  forall (be : backend) (observation : str) (w : world) (e : exn),
    (forall r, be (invocations (events w)) r = inl e) ->
    exists prefix tr,
      act be a (PyStr observation) w
        = Outcome (inr (prefix ++ exn_text e)) a
            (World (events w ++ tr) (lines w))
      /\ timeline tr = [Call].

(** Calls allowed to one [act]. *)
Definition attempts (a : agent) : nat :=
  match a with
  | Human _ => 0
  | OpenRouter _ | Gemini _ | OpenAI _ | Anthropic _ => 3
  | HFLocal _ | Cerebras _ | AWSBedrock _ => 1
  end.

(** What a single-attempt agent puts before the exception's text. *)
Definition error_prefix (a : agent) : str :=
  match a with
  | AWSBedrock s =>
      lit "ERROR: Can't invoke '" ++ AWSBedrockAgent.model_id s
        ++ lit "'. Reason: "
  | _ => lit "An error occurred: "
  end.

(** The classes whose [__call__] tests [isinstance(observation, str)]. *)
Definition validating (a : agent) : bool :=
  match a with
  | OpenRouter _ | Gemini _ | OpenAI _ | AWSBedrock _ | Anthropic _ => true
  | Human _ | HFLocal _ | Cerebras _ => false
  end.

(** An observation that is not a string is refused with the [ValueError]
    of the source, and nothing else happens. *)
Definition rejects_non_strings (a : agent) : Prop :=
  forall (be : backend) (observation : pyval) (w : world),
    isinstance_str observation = false ->
    act be a observation w = Outcome (inl (not_a_string observation)) a w.

(** Every action the agent returns is trimmed. *)
Definition always_trimmed (a : agent) : Prop :=
  forall (be : backend) (observation : pyval) (w : world) (action : str),
    returned (act be a observation w) = inr action ->
    surface_trimmed action.

(** Construction fails, with some exception and before any request to a
    backend, in every environment that sets no variable at all, whatever
    the SDK constructors do. *)
Definition fails_without_credentials (args : arguments) : Prop :=
  forall (env : pyenv) (lib : sdk),
    environ env = ∅ ->
    exists e tr, new env lib args = (inl e, tr) /\ invocations tr = 0%nat.

(** The modules a constructor imports. *)
Definition modules_of (k : kind) : list string :=
  match k with
  | KHuman => []
  | KOpenRouter => ["openai"; "openai._exceptions"]
  | KGemini => ["google.generativeai"]
  | KOpenAI => ["openai"]
  | KHFLocal => ["transformers"]
  | KCerebras => ["cerebras.cloud.sdk"]
  | KAWSBedrock => ["boto3"; "botocore.exceptions"]
  | KAnthropic => ["anthropic"]
  end%string.

Definition installed (env : pyenv) (k : kind) : bool :=
  forallb (importable env) (modules_of k).

(** The [ValueError] of a constructor that finds no key: it names the
    provider and the variable to set. *)
Definition key_not_found (provider variable : string) : exn :=
  ValueError (lit provider ++ lit " API key not found. Please set the "
                ++ lit variable ++ lit " environment variable.").

Definition provider_of (k : kind) : string :=
  match k with
  | KOpenRouter => "OpenRouter"
  | KGemini => "Gemini"
  | _ => "OpenAI"
  end.

(** The [ImportError] of a constructor whose package is missing: it names
    what is required, for which class, and the package to install. *)
Definition package_required (what class package : string) : exn :=
  ImportError (lit what ++ lit " is required for " ++ lit class
                 ++ lit ". Install it with: pip install " ++ lit package).

Definition package_missing (k : kind) : exn :=
  match k with
  | KOpenRouter => package_required "OpenAI package" "OpenRouterAgent" "openai"
  | KGemini =>
      package_required "Google Generative AI package" "GeminiAgent"
        "google-generativeai"
  | _ => package_required "OpenAI package" "OpenAIAgent" "openai"
  end.

(** The SDK constructor that the classes without a check of their own call
    once their package is imported. *)
Definition sdk_call_of (env : pyenv) (args : arguments) : option handle :=
  match args with
  | NewCerebras _ _ => Some (Cerebras_client (getenv env "CEREBRAS_API_KEY"))
  | NewAWSBedrock _ region _ _ _ =>
      Some (Boto3_client (lit "bedrock-runtime") region)
  | NewAnthropic _ _ _ _ _ => Some Anthropic_client
  | _ => None
  end.

(** ** Stubs and sample agents *)

(** A backend that fails [n] times with [msg] and then answers [text]. *)
Definition flaky (n : nat) (msg text : str) : backend :=
  fun i _ => if (i <? n)%nat then inl (Exn "BackendError" msg) else inr text.

(** A backend that always fails with [msg]. *)
Definition broken (msg : str) : backend :=
  fun _ _ => inl (Exn "BackendError" msg).

Definition sample_openrouter : agent :=
  OpenRouter (OpenRouterAgent.Build (lit "gpt-4o") false
                (Some STANDARD_GAME_PROMPT) ∅
                (OpenAI_client (lit "sk") (Some (lit "https://openrouter.ai/api/v1")))).

Definition sample_gemini : agent :=
  Gemini (GeminiAgent.Build (lit "gemini-pro") (Some STANDARD_GAME_PROMPT)
            true GeminiAgent.default_generation_config
            (Gemini_model (lit "gemini-pro")
               GeminiAgent.default_generation_config)).

Definition sample_hflocal : agent :=
  HFLocal (HFLocalAgent.Build (HF_tokenizer (lit "m"))
             (HF_model (lit "m") false (lit "auto") ∅)
             STANDARD_GAME_PROMPT
             (HF_pipeline 1024 (HF_model (lit "m") false (lit "auto") ∅)
                (HF_tokenizer (lit "m")))).

Definition sample_cerebras : agent :=
  Cerebras (CerebrasAgent.Build (lit "llama3.1-8b")
              (Cerebras_client (Some (lit "k"))) STANDARD_GAME_PROMPT).

Definition sample_bedrock : agent :=
  AWSBedrock (AWSBedrockAgent.Build (lit "haiku") (lit "us-east-1")
                (Some STANDARD_GAME_PROMPT) false ∅
                (Boto3_client (lit "bedrock-runtime") (lit "us-east-1"))).

Definition sample_human : agent := Human HumanAgent.Build.

Definition empty_world : world := World [] [].

(** No variable set, every module importable, every SDK constructor
    returning its handle. *)
Definition bare_env : pyenv := PyEnv ∅ (fun _ => true).
Definition obliging : sdk := fun _ => None.

(** Events of a successful request besides the call itself. *)
Definition no_noise {O} (_ : O) (_ _ : str) : list event := [].

Definition gemini_noise (s : GeminiAgent.t) (observation raw : str)
  : list event :=
  if GeminiAgent.verbose s
  then [EvPrint (nl ++ lit "Observation: " ++ observation ++ nl
                   ++ lit "Response: " ++ raw)]
  else [].

(** Number of calls on a timeline. *)
Definition calls (tl : list tick) : nat :=
  length (filter (fun t => is_wait t = false) tl).

(** Every character of the string is whitespace. *)
Definition blank (s : str) : Prop := Forall (fun c => isspace c = true) s.

(** ** Further observations on traces and agents *)

(** The requests a trace records, in order. *)
Definition requests (tr : list event) : list request :=
  omap (fun e => match e with EvRequest r => Some r | _ => None end) tr.

(** The texts a trace records as printed, in order. *)
Definition printed (tr : list event) : list str :=
  omap (fun e => match e with EvPrint t => Some t | _ => None end) tr.

(** How many calls a loop allowed [n] attempts makes for [r], when [c]
    calls were made before: it stops at the first answer. *)
Fixpoint attempts_made (be : backend) (r : request) (c n : nat) : nat :=
  match n with
  | O => O
  | S n' =>
      match be c r with
      | inr _ => 1%nat
      | inl _ => S (attempts_made be r (S c) n')
      end
  end.

(** The agent with its [verbose] field set to [b], for the classes that
    have the field. *)
Definition set_verbose (b : bool) (a : agent) : agent :=
  match a with
  | OpenRouter s =>
      OpenRouter (OpenRouterAgent.Build (OpenRouterAgent.model_name s) b
                    (OpenRouterAgent.system_prompt s)
                    (OpenRouterAgent.kwargs s) (OpenRouterAgent.client s))
  | Gemini s =>
      Gemini (GeminiAgent.Build (GeminiAgent.model_name s)
                (GeminiAgent.system_prompt s) b
                (GeminiAgent.generation_config s) (GeminiAgent.model s))
  | OpenAI s =>
      OpenAI (OpenAIAgent.Build (OpenAIAgent.model_name s)
                (OpenAIAgent.system_prompt s) b (OpenAIAgent.kwargs s)
                (OpenAIAgent.client s))
  | AWSBedrock s =>
      AWSBedrock (AWSBedrockAgent.Build (AWSBedrockAgent.model_id s)
                    (AWSBedrockAgent.region_name s)
                    (AWSBedrockAgent.system_prompt s) b
                    (AWSBedrockAgent.kwargs s) (AWSBedrockAgent.client s))
  | Anthropic s =>
      Anthropic (AnthropicAgent.Build (AnthropicAgent.model_name s)
                   (AnthropicAgent.system_prompt s)
                   (AnthropicAgent.max_tokens s)
                   (AnthropicAgent.temperature s) b
                   (AnthropicAgent.client s))
  | Human _ | HFLocal _ | Cerebras _ => a
  end.

(** The defaults of [AWSBedrockAgent._make_request]. *)
Definition bedrock_defaults : dict :=
  {[ "maxTokens"%string := PyInt 512;
     "temperature"%string := float_0_9;
     "topP"%string := float_0_9 ]}.

(** The API key held by the client of an agent, for the classes whose
    constructor passes one to the client it keeps. *)
Definition api_key_of (a : agent) : option str :=
  match a with
  | OpenRouter s =>
      match OpenRouterAgent.client s with
      | OpenAI_client k _ => Some k
      | _ => None
      end
  | OpenAI s =>
      match OpenAIAgent.client s with
      | OpenAI_client k _ => Some k
      | _ => None
      end
  | _ => None
  end.

(** One variable set, every module importable. *)
Definition env_with (name : string) (value : str) : pyenv :=
  PyEnv {[ name := value ]} (fun _ => true).

(** No variable set and no module importable. *)
Definition no_packages : pyenv := PyEnv ∅ (fun _ => false).

(** * Facts *)

(** ** Trimming *)

Lemma lstrip_head (s : str) (c : N) :
  head (lstrip s) = Some c -> isspace c = false.
Proof.
  induction s as [|x s IH]; simpl; [discriminate|].
  destruct (isspace x) eqn:Hx; [exact IH|].
  simpl. intros [= <-]. exact Hx.
Qed.

Lemma lstrip_split (s : str) :
  exists l, s = l ++ lstrip s /\ blank l.
Proof.
  induction s as [|x s [l [Hl Hb]]]; simpl.
  - exists []. split; [reflexivity|constructor].
  - destruct (isspace x) eqn:Hx.
    + exists (x :: l). split; [simpl; congruence|constructor; assumption].
    + exists []. split; [reflexivity|constructor].
Qed.

Lemma last_lstrip (s : str) (c : N) :
  last (lstrip s) = Some c -> last s = Some c.
Proof.
  induction s as [|x s IH]; simpl; [discriminate|].
  destruct (isspace x); [|exact id].
  intros H. specialize (IH H). rewrite last_cons, IH. reflexivity.
Qed.

Lemma last_rev (s : str) : last (rev s) = head s.
Proof.
  destruct s as [|x s]; [reflexivity|].
  simpl. apply last_snoc.
Qed.

Lemma rstrip_last (s : str) (c : N) :
  last (rstrip s) = Some c -> isspace c = false.
Proof.
  unfold rstrip. rewrite last_rev. apply lstrip_head.
Qed.

Lemma rstrip_split (s : str) :
  exists r, s = rstrip s ++ r /\ blank r.
Proof.
  destruct (lstrip_split (rev s)) as [l [Hl Hb]].
  exists (rev l). split.
  - unfold rstrip. rewrite <- rev_app_distr, <- Hl. symmetry. apply rev_involutive.
  - unfold blank in *. rewrite Forall_forall in *.
    intros c Hc. apply Hb. rewrite list_elem_of_In in *.
    apply in_rev. exact Hc.
Qed.

Lemma strip_trimmed (s : str) : surface_trimmed (strip s).
Proof.
  split; intros c Hc.
  - exact (lstrip_head _ _ Hc).
  - apply (rstrip_last s). apply last_lstrip. exact Hc.
Qed.

Lemma strip_split (s : str) :
  exists l r, s = l ++ strip s ++ r /\ blank l /\ blank r.
Proof.
  destruct (rstrip_split s) as [r [Hr Hbr]].
  destruct (lstrip_split (rstrip s)) as [l [Hl Hbl]].
  exists l, r. repeat split; try assumption.
  unfold strip. rewrite app_assoc, <- Hl. exact Hr.
Qed.

(** ** Timelines *)

Lemma timeline_app (a b : list event) :
  timeline (a ++ b) = timeline a ++ timeline b.
Proof. apply omap_app. Qed.

Lemma invocations_app (a b : list event) :
  invocations (a ++ b) = (invocations a + invocations b)%nat.
Proof. unfold invocations. rewrite filter_app. apply length_app. Qed.

Lemma invocations_calls (tr : list event) :
  invocations tr = calls (timeline tr).
Proof.
  unfold invocations, calls, timeline.
  induction tr as [|e tr IH]; [reflexivity|].
  rewrite filter_cons.
  destruct e; simpl; rewrite ?filter_cons; simpl;
    repeat case_decide; simpl;
    first [exact IH | f_equal; exact IH | congruence].
Qed.

Lemma sleeps_timeline (tr : list event) :
  sleeps tr
  = omap (fun t => match t with Wait d => Some d | Call => None end)
      (timeline tr).
Proof.
  unfold sleeps, timeline.
  induction tr as [|e tr IH]; [reflexivity|].
  destruct e; simpl; first [exact IH | f_equal; exact IH].
Qed.

Lemma calls_app (a b : list tick) : calls (a ++ b) = (calls a + calls b)%nat.
Proof. unfold calls. rewrite filter_app. apply length_app. Qed.

Lemma calls_rounds (d : Z) (n : nat) :
  calls (concat (replicate n [Call; Wait d])) = n.
Proof.
  induction n as [|n IH]; [reflexivity|].
  change (calls (Call :: Wait d :: concat (replicate n [Call; Wait d]))
          = S n).
  unfold calls in *. rewrite !filter_cons. simpl.
  repeat case_decide; simpl; congruence.
Qed.

Lemma calls_schedule (d : Z) (j : nat) :
  (1 <= j)%nat -> calls (schedule d j) = j.
Proof.
  intros Hj. unfold schedule. rewrite calls_app, calls_rounds.
  unfold calls. rewrite filter_cons. simpl. lia.
Qed.

Lemma waits_schedule (d : Z) (j : nat) :
  omap (fun t => match t with Wait d => Some d | Call => None end)
    (schedule d j)
  = replicate (j - 1) d.
Proof.
  unfold schedule. rewrite omap_app. simpl. rewrite app_nil_r.
  induction (j - 1)%nat as [|n IH]; [reflexivity|].
  simpl. f_equal. exact IH.
Qed.


(** ** Ranges *)

Lemma range_length (lo hi : Z) : length (range lo hi) = Z.to_nat (hi - lo).
Proof. unfold range. rewrite length_map. apply length_seq. Qed.

Lemma range_first (lo hi : Z) :
  lo < hi -> range lo hi = lo :: range (lo + 1) hi.
Proof.
  intros H. unfold range.
  replace (Z.to_nat (hi - lo)) with (S (Z.to_nat (hi - (lo + 1)))) by lia.
  simpl. f_equal; [lia|].
  rewrite <- List.seq_shift, List.map_map. apply List.map_ext.
  intros i. lia.
Qed.

Lemma range_split (lo mid hi : Z) :
  lo <= mid <= hi -> range lo hi = range lo mid ++ range mid hi.
Proof.
  remember (Z.to_nat (mid - lo)) as n eqn:Hn.
  revert lo Hn. induction n as [|n IH]; intros lo Hn H.
  - assert (mid = lo) by lia. subst mid.
    unfold range at 2. rewrite Z.sub_diag. reflexivity.
  - rewrite (range_first lo hi), (range_first lo mid) by lia.
    simpl. f_equal. apply IH; lia.
Qed.

Lemma range_below (lo hi : Z) : Forall (fun a => a < hi) (range lo hi).
Proof.
  remember (Z.to_nat (hi - lo)) as n eqn:Hn.
  revert lo Hn. induction n as [|n IH]; intros lo Hn.
  - unfold range. rewrite <- Hn. constructor.
  - rewrite range_first by lia. constructor; [lia|]. apply IH. lia.
Qed.

Lemma range_empty (lo hi : Z) : hi <= lo -> range lo hi = [].
Proof.
  intros H. unfold range. replace (Z.to_nat (hi - lo)) with 0%nat by lia.
  reflexivity.
Qed.

(** ** Delays *)

Lemma sleep_error_ok (d : Z) :
  0 <= d <= max_sleep_seconds -> sleep_error d = None.
Proof.
  intros H. unfold sleep_error.
  destruct (Z.ltb_spec d (- max_sleep_seconds));
    [unfold max_sleep_seconds in *; lia|].
  destruct (Z.ltb_spec max_sleep_seconds d); [lia|].
  destruct (Z.ltb_spec d 0); [lia|]. reflexivity.
Qed.

Lemma default_delay_ok : 0 <= 5 <= max_sleep_seconds.
Proof. unfold max_sleep_seconds. lia. Qed.

(** ** The retry loop over any class's single request *)

Section RetryFacts.
Context {O : Type}.
Variable be : backend.
Variable make_request : str -> M O str.
Variable echo : O -> bool.
Variable req : O -> str -> request.
Variable noise : O -> str -> str -> list event.
Variable observation : str.
Variables retries delay : Z.

(** One request: a call to the backend, whose failure is the request's
    failure and whose answer is returned trimmed, after events that are
    neither calls nor delays. *)
Hypothesis make_request_spec : forall st,
  make_request observation st
  = match be (invocations (trace st)) (req (self st) observation) with
    | inl e =>
        (inl e,
         State (self st)
           (trace st ++ [EvRequest (req (self st) observation)])
           (stdin st))
    | inr raw =>
        (inr (strip raw),
         State (self st)
           (trace st ++ EvRequest (req (self st) observation)
              :: noise (self st) observation raw)
           (stdin st))
    end.
Hypothesis noise_quiet : forall s raw,
  timeline (noise s observation raw) = [].

Let loop := retry_loop make_request echo observation retries delay.

(** A failed attempt, whatever the delay is: the failure is printed; when
    attempts remain the loop sleeps, or ends with what [time.sleep] raises;
    then it goes on. *)
Lemma loop_fail_general a rest last st e :
  be (invocations (trace st)) (req (self st) observation) = inl e ->
  loop (a :: rest) last st
  = if a <? retries
    then match sleep_error delay with
         | Some e' =>
             (inl e',
              State (self st)
                (trace st
                   ++ [EvRequest (req (self st) observation);
                       EvPrint (attempt_failed a e)])
                (stdin st))
         | None =>
             loop rest (Some e)
               (State (self st)
                  (trace st
                     ++ [EvRequest (req (self st) observation);
                         EvPrint (attempt_failed a e); EvSleep delay])
                  (stdin st))
         end
    else loop rest (Some e)
           (State (self st)
              (trace st
                 ++ [EvRequest (req (self st) observation);
                     EvPrint (attempt_failed a e)])
              (stdin st)).
Proof.
  intros Hbe. unfold loop. simpl.
  unfold try_except, bind at 1. rewrite make_request_spec, Hbe.
  unfold bind, print, sleep, when, emit, ret, raise. simpl.
  destruct (a <? retries); simpl; [destruct (sleep_error delay)|]; simpl;
    rewrite <- ?app_assoc; reflexivity.
Qed.

Hypothesis delay_ok : 0 <= delay <= max_sleep_seconds.

Lemma loop_step_fail a rest last st e :
  be (invocations (trace st)) (req (self st) observation) = inl e ->
  exists tr,
    loop (a :: rest) last st
    = loop rest (Some e) (State (self st) (trace st ++ tr) (stdin st))
    /\ timeline tr = Call :: (if a <? retries then [Wait delay] else []).
Proof.
  intros Hbe. rewrite (loop_fail_general a rest last st e Hbe).
  rewrite (sleep_error_ok delay delay_ok).
  destruct (a <? retries); eexists; (split; [reflexivity|reflexivity]).
Qed.

Lemma loop_step_ok a rest last st raw :
  be (invocations (trace st)) (req (self st) observation) = inr raw ->
  exists tr,
    loop (a :: rest) last st
    = (inr (strip raw), State (self st) (trace st ++ tr) (stdin st))
    /\ timeline tr = [Call].
Proof.
  intros Hbe. unfold loop. simpl.
  unfold try_except, bind at 1. rewrite make_request_spec, Hbe.
  unfold bind, get_self, print, when, emit, ret. simpl.
  destruct (echo (self st)); simpl; eexists; rewrite <- ?app_assoc;
    (split; [reflexivity|]); simpl;
    rewrite ?timeline_app, noise_quiet; reflexivity.
Qed.

Lemma loop_prefix pre : forall rest last st,
  Forall (fun a => a < retries) pre ->
  fails_from be (req (self st) observation) (invocations (trace st))
    (length pre) ->
  exists last' tr,
    loop (pre ++ rest) last st
    = loop rest last' (State (self st) (trace st ++ tr) (stdin st))
    /\ timeline tr = concat (replicate (length pre) [Call; Wait delay]).
Proof.
  induction pre as [|a pre IH]; intros rest last st Hlt Hfail.
  - exists last, []. rewrite app_nil_r. destruct st. split; reflexivity.
  - inversion Hlt as [|? ? Ha Hpre]; subst.
    destruct (Hfail 0%nat) as [e He]; [simpl; lia|].
    rewrite Nat.add_0_r in He.
    destruct (loop_step_fail a (pre ++ rest) last st e He) as [tr1 [E1 T1]].
    simpl app. rewrite E1.
    assert (Hc : invocations (trace st ++ tr1)
                 = S (invocations (trace st))).
    { rewrite invocations_app, (invocations_calls tr1), T1.
      destruct (a <? retries); unfold calls; rewrite !filter_cons; simpl;
        lia. }
    destruct (IH rest (Some e)
                (State (self st) (trace st ++ tr1) (stdin st)) Hpre)
      as [last' [tr2 [E2 T2]]].
    { intros i Hi. simpl. rewrite Hc.
      destruct (Hfail (S i)) as [e' He']; [simpl; lia|].
      exists e'. rewrite <- He'. f_equal. lia. }
    exists last', (tr1 ++ tr2). cbn [self trace stdin] in E2. rewrite E2, app_assoc.
    split; [reflexivity|].
    rewrite timeline_app, T1, T2.
    apply Z.ltb_lt in Ha. rewrite Ha. reflexivity.
Qed.

(** The first [k - 1] calls fail and call [k] answers: the loop returns
    that answer trimmed after [k] calls. *)
Lemma loop_success (k : nat) (raw : str) (st : state O) :
  (1 <= k)%nat -> Z.of_nat k <= retries ->
  fails_from be (req (self st) observation) (invocations (trace st))
    (k - 1) ->
  be (invocations (trace st) + (k - 1))%nat (req (self st) observation)
    = inr raw ->
  exists tr,
    retry_request make_request echo observation retries delay st
    = (inr (strip raw), State (self st) (trace st ++ tr) (stdin st))
    /\ timeline tr = schedule delay k.
Proof.
  intros Hk HkN Hfail Hok. unfold retry_request.
  rewrite (range_split 1 (Z.of_nat k) (retries + 1)) by lia.
  rewrite (range_first (Z.of_nat k)) by lia.
  assert (Hlen : length (range 1 (Z.of_nat k)) = (k - 1)%nat)
    by (rewrite range_length; lia).
  destruct (loop_prefix (range 1 (Z.of_nat k))
              (Z.of_nat k :: range (Z.of_nat k + 1) (retries + 1))
              None st) as [last' [tr1 [E1 T1]]].
  { eapply Forall_impl; [apply range_below|]. simpl. lia. }
  { rewrite Hlen. exact Hfail. }
  fold loop. rewrite E1.
  assert (Hc : invocations (trace st ++ tr1)
               = (invocations (trace st) + (k - 1))%nat).
  { rewrite invocations_app, (invocations_calls tr1), T1, Hlen,
      calls_rounds. reflexivity. }
  destruct (loop_step_ok (Z.of_nat k) (range (Z.of_nat k + 1) (retries + 1))
              last' (State (self st) (trace st ++ tr1) (stdin st)) raw)
    as [tr2 [E2 T2]].
  { simpl. rewrite Hc. exact Hok. }
  exists (tr1 ++ tr2). cbn [self trace stdin] in E2. rewrite E2, app_assoc.
  split; [reflexivity|].
  rewrite timeline_app, T1, T2, Hlen. reflexivity.
Qed.

(** All of the [retries] calls fail: the loop raises what the last of
    them raised, after [retries] calls. *)
Lemma loop_exhausted (e : exn) (st : state O) :
  1 <= retries ->
  fails_from be (req (self st) observation) (invocations (trace st))
    (Z.to_nat retries - 1) ->
  be (invocations (trace st) + (Z.to_nat retries - 1))%nat
    (req (self st) observation) = inl e ->
  exists tr,
    retry_request make_request echo observation retries delay st
    = (inl e, State (self st) (trace st ++ tr) (stdin st))
    /\ timeline tr = schedule delay (Z.to_nat retries).
Proof.
  intros HN Hfail Hlast. unfold retry_request.
  rewrite (range_split 1 retries (retries + 1)) by lia.
  rewrite (range_first retries) by lia.
  rewrite (range_empty (retries + 1)) by lia.
  assert (Hlen : length (range 1 retries) = (Z.to_nat retries - 1)%nat)
    by (rewrite range_length; lia).
  destruct (loop_prefix (range 1 retries) [retries] None st)
    as [last' [tr1 [E1 T1]]].
  { apply range_below. }
  { rewrite Hlen. exact Hfail. }
  fold loop. rewrite E1.
  assert (Hc : invocations (trace st ++ tr1)
               = (invocations (trace st) + (Z.to_nat retries - 1))%nat).
  { rewrite invocations_app, (invocations_calls tr1), T1, Hlen,
      calls_rounds. reflexivity. }
  destruct (loop_step_fail retries [] last'
              (State (self st) (trace st ++ tr1) (stdin st)) e)
    as [tr2 [E2 T2]].
  { simpl. rewrite Hc. exact Hlast. }
  exists (tr1 ++ tr2). cbn [self trace stdin] in E2. rewrite E2, app_assoc.
  split; [reflexivity|].
  rewrite timeline_app, T1, T2, Hlen, Z.ltb_irrefl. reflexivity.
Qed.

(** Whatever the backend does and whatever the delay is, the loop leaves
    the receiver and standard input as they were and only adds to the
    trace. *)
Lemma loop_frame attempts : forall last st,
  exists r tr,
    loop attempts last st
    = (r, State (self st) (trace st ++ tr) (stdin st)).
Proof.
  induction attempts as [|a rest IH]; intros last st.
  - unfold loop. simpl. destruct last; unfold raise; destruct st;
      eexists; exists []; rewrite app_nil_r; reflexivity.
  - destruct (be (invocations (trace st)) (req (self st) observation))
      as [e|raw] eqn:Hbe.
    + rewrite (loop_fail_general a rest last st e Hbe).
      destruct (a <? retries); [destruct (sleep_error delay)|].
      * eexists. eexists. reflexivity.
      * match goal with
        | |- context [loop rest (Some e) ?st1] =>
            destruct (IH (Some e) st1) as [r [tr2 E2]]
        end.
        cbn [self trace stdin] in E2. rewrite E2, <- app_assoc.
        eexists. eexists. reflexivity.
      * match goal with
        | |- context [loop rest (Some e) ?st1] =>
            destruct (IH (Some e) st1) as [r [tr2 E2]]
        end.
        cbn [self trace stdin] in E2. rewrite E2, <- app_assoc.
        eexists. eexists. reflexivity.
    + destruct (loop_step_ok a rest last st raw Hbe) as [tr1 [E1 _]].
      eexists; exists tr1. exact E1.
Qed.
End RetryFacts.

(** ** The single request of each retrying class *)

Lemma openrouter_request be observation (st : state OpenRouterAgent.t) :
  OpenRouterAgent._make_request be observation st
  = match be (invocations (trace st))
            (OpenRouterAgent.build_request (self st) observation) with
    | inl e =>
        (inl e,
         State (self st)
           (trace st
              ++ [EvRequest (OpenRouterAgent.build_request (self st) observation)])
           (stdin st))
    | inr raw =>
        (inr (strip raw),
         State (self st)
           (trace st
              ++ EvRequest (OpenRouterAgent.build_request (self st) observation)
              :: no_noise (self st) observation raw)
           (stdin st))
    end.
Proof.
  unfold OpenRouterAgent._make_request, bind, get_self, invoke, ret.
  simpl. destruct (be _ _); reflexivity.
Qed.

Lemma openai_request be observation (st : state OpenAIAgent.t) :
  OpenAIAgent._make_request be observation st
  = match be (invocations (trace st))
            (OpenAIAgent.build_request (self st) observation) with
    | inl e =>
        (inl e,
         State (self st)
           (trace st
              ++ [EvRequest (OpenAIAgent.build_request (self st) observation)])
           (stdin st))
    | inr raw =>
        (inr (strip raw),
         State (self st)
           (trace st
              ++ EvRequest (OpenAIAgent.build_request (self st) observation)
              :: no_noise (self st) observation raw)
           (stdin st))
    end.
Proof.
  unfold OpenAIAgent._make_request, bind, get_self, invoke, ret.
  simpl. destruct (be _ _); reflexivity.
Qed.

Lemma anthropic_request be observation (st : state AnthropicAgent.t) :
  AnthropicAgent._make_request be observation st
  = match be (invocations (trace st))
            (AnthropicAgent.build_request (self st) observation) with
    | inl e =>
        (inl e,
         State (self st)
           (trace st
              ++ [EvRequest (AnthropicAgent.build_request (self st) observation)])
           (stdin st))
    | inr raw =>
        (inr (strip raw),
         State (self st)
           (trace st
              ++ EvRequest (AnthropicAgent.build_request (self st) observation)
              :: no_noise (self st) observation raw)
           (stdin st))
    end.
Proof.
  unfold AnthropicAgent._make_request, bind, get_self, invoke, ret.
  simpl. destruct (be _ _); reflexivity.
Qed.

Lemma gemini_request be observation (st : state GeminiAgent.t) :
  GeminiAgent._make_request be observation st
  = match be (invocations (trace st))
            (GeminiAgent.build_request (self st) observation) with
    | inl e =>
        (inl e,
         State (self st)
           (trace st
              ++ [EvRequest (GeminiAgent.build_request (self st) observation)])
           (stdin st))
    | inr raw =>
        (inr (strip raw),
         State (self st)
           (trace st
              ++ EvRequest (GeminiAgent.build_request (self st) observation)
              :: gemini_noise (self st) observation raw)
           (stdin st))
    end.
Proof.
  unfold GeminiAgent._make_request, gemini_noise, bind, get_self, invoke,
    when, print, emit, ret.
  simpl. destruct (be _ _); [reflexivity|].
  destruct (GeminiAgent.verbose (self st)); simpl;
    rewrite <- ?app_assoc; reflexivity.
Qed.

Lemma no_noise_quiet {O} (s : O) (observation raw : str) :
  timeline (no_noise s observation raw) = [].
Proof. reflexivity. Qed.

Lemma gemini_noise_quiet s observation raw :
  timeline (gemini_noise s observation raw) = [].
Proof. unfold gemini_noise. destruct (GeminiAgent.verbose s); reflexivity. Qed.

(** ** The retrying agents *)

Lemma act_is_retry be a observation w :
  retrying a = true ->
  retry be a observation 3 5 w = Some (act be a (PyStr observation) w).
Proof. destruct a; try discriminate; reflexivity. Qed.

Lemma retrying_request a observation :
  retrying a = true -> exists r, request_of a observation = Some r.
Proof. destruct a; try discriminate; intros _; eexists; reflexivity. Qed.

Ltac finish_retry E T :=
  eexists; split;
  [ unfold retry, run,
      OpenRouterAgent._retry_request, GeminiAgent._retry_request,
      OpenAIAgent._retry_request, AnthropicAgent._retry_request;
    rewrite E; reflexivity
  | exact T ].

Lemma retry_success be a observation retries delay w (k : nat) raw r :
  retrying a = true ->
  request_of a observation = Some r ->
  0 <= delay <= max_sleep_seconds ->
  (1 <= k)%nat -> Z.of_nat k <= retries ->
  fails_from be r (invocations (events w)) (k - 1) ->
  be (invocations (events w) + (k - 1))%nat r = inr raw ->
  exists tr,
    retry be a observation retries delay w
    = Some (Outcome (inr (strip raw)) a (World (events w ++ tr) (lines w)))
    /\ timeline tr = schedule delay k.
Proof.
  intros Ha Hr Hd Hk HkN Hfail Hok.
  destruct a as [s|s|s|s|s|s|s|s]; try discriminate;
    injection Hr as <-.
  - destruct (loop_success be (OpenRouterAgent._make_request be)
                OpenRouterAgent.verbose OpenRouterAgent.build_request
                no_noise observation retries delay
                (fun st => openrouter_request be observation st)
                (fun s raw => no_noise_quiet s observation raw)
                Hd k raw (State s (events w) (lines w)) Hk HkN Hfail Hok)
      as [tr [E T]].
    finish_retry E T.
  - destruct (loop_success be (GeminiAgent._make_request be)
                (fun _ => false) GeminiAgent.build_request
                gemini_noise observation retries delay
                (fun st => gemini_request be observation st)
                (fun s raw => gemini_noise_quiet s observation raw)
                Hd k raw (State s (events w) (lines w)) Hk HkN Hfail Hok)
      as [tr [E T]].
    finish_retry E T.
  - destruct (loop_success be (OpenAIAgent._make_request be)
                OpenAIAgent.verbose OpenAIAgent.build_request
                no_noise observation retries delay
                (fun st => openai_request be observation st)
                (fun s raw => no_noise_quiet s observation raw)
                Hd k raw (State s (events w) (lines w)) Hk HkN Hfail Hok)
      as [tr [E T]].
    finish_retry E T.
  - destruct (loop_success be (AnthropicAgent._make_request be)
                AnthropicAgent.verbose AnthropicAgent.build_request
                no_noise observation retries delay
                (fun st => anthropic_request be observation st)
                (fun s raw => no_noise_quiet s observation raw)
                Hd k raw (State s (events w) (lines w)) Hk HkN Hfail Hok)
      as [tr [E T]].
    finish_retry E T.
Qed.

Lemma retry_exhausted be a observation retries delay w e r :
  retrying a = true ->
  request_of a observation = Some r ->
  0 <= delay <= max_sleep_seconds ->
  1 <= retries ->
  fails_from be r (invocations (events w)) (Z.to_nat retries - 1) ->
  be (invocations (events w) + (Z.to_nat retries - 1))%nat r = inl e ->
  exists tr,
    retry be a observation retries delay w
    = Some (Outcome (inl e) a (World (events w ++ tr) (lines w)))
    /\ timeline tr = schedule delay (Z.to_nat retries).
Proof.
  intros Ha Hr Hd HN Hfail Hlast.
  destruct a as [s|s|s|s|s|s|s|s]; try discriminate;
    injection Hr as <-.
  - destruct (loop_exhausted be (OpenRouterAgent._make_request be)
                OpenRouterAgent.verbose OpenRouterAgent.build_request
                no_noise observation retries delay
                (fun st => openrouter_request be observation st)
                Hd e (State s (events w) (lines w)) HN Hfail Hlast)
      as [tr [E T]].
    finish_retry E T.
  - destruct (loop_exhausted be (GeminiAgent._make_request be)
                (fun _ => false) GeminiAgent.build_request
                gemini_noise observation retries delay
                (fun st => gemini_request be observation st)
                Hd e (State s (events w) (lines w)) HN Hfail Hlast)
      as [tr [E T]].
    finish_retry E T.
  - destruct (loop_exhausted be (OpenAIAgent._make_request be)
                OpenAIAgent.verbose OpenAIAgent.build_request
                no_noise observation retries delay
                (fun st => openai_request be observation st)
                Hd e (State s (events w) (lines w)) HN Hfail Hlast)
      as [tr [E T]].
    finish_retry E T.
  - destruct (loop_exhausted be (AnthropicAgent._make_request be)
                AnthropicAgent.verbose AnthropicAgent.build_request
                no_noise observation retries delay
                (fun st => anthropic_request be observation st)
                Hd e (State s (events w) (lines w)) HN Hfail Hlast)
      as [tr [E T]].
    finish_retry E T.
Qed.

(** With no attempt allowed the loop raises at once, without a call. *)
Lemma retry_none be a observation retries delay w :
  retrying a = true -> retries <= 0 ->
  retry be a observation retries delay w
  = Some (Outcome
            (inl (TypeError (lit "exceptions must derive from BaseException")))
            a w).
Proof.
  intros Ha HN. destruct w as [tr ls].
  destruct a; try discriminate;
    unfold retry, run,
      OpenRouterAgent._retry_request, GeminiAgent._retry_request,
      OpenAIAgent._retry_request, AnthropicAgent._retry_request,
      retry_request;
    rewrite range_empty by lia; reflexivity.
Qed.

Lemma retry_frame be a observation retries delay w :
  retrying a = true ->
  exists r tr,
    retry be a observation retries delay w
    = Some (Outcome r a (World (events w ++ tr) (lines w))).
Proof.
  intros Ha.
  destruct a as [s|s|s|s|s|s|s|s]; try discriminate;
    unfold retry, run,
      OpenRouterAgent._retry_request, GeminiAgent._retry_request,
      OpenAIAgent._retry_request, AnthropicAgent._retry_request,
      retry_request.
  - destruct (loop_frame be (OpenRouterAgent._make_request be)
                OpenRouterAgent.verbose OpenRouterAgent.build_request
                no_noise observation retries delay
                (fun st => openrouter_request be observation st)
                (fun s raw => no_noise_quiet s observation raw)
                (range 1 (retries + 1)) None (State s (events w) (lines w)))
      as [r [tr E]].
    exists r, tr. rewrite E. reflexivity.
  - destruct (loop_frame be (GeminiAgent._make_request be)
                (fun _ => false) GeminiAgent.build_request
                gemini_noise observation retries delay
                (fun st => gemini_request be observation st)
                (fun s raw => gemini_noise_quiet s observation raw)
                (range 1 (retries + 1)) None (State s (events w) (lines w)))
      as [r [tr E]].
    exists r, tr. rewrite E. reflexivity.
  - destruct (loop_frame be (OpenAIAgent._make_request be)
                OpenAIAgent.verbose OpenAIAgent.build_request
                no_noise observation retries delay
                (fun st => openai_request be observation st)
                (fun s raw => no_noise_quiet s observation raw)
                (range 1 (retries + 1)) None (State s (events w) (lines w)))
      as [r [tr E]].
    exists r, tr. rewrite E. reflexivity.
  - destruct (loop_frame be (AnthropicAgent._make_request be)
                AnthropicAgent.verbose AnthropicAgent.build_request
                no_noise observation retries delay
                (fun st => anthropic_request be observation st)
                (fun s raw => no_noise_quiet s observation raw)
                (range 1 (retries + 1)) None (State s (events w) (lines w)))
      as [r [tr E]].
    exists r, tr. rewrite E. reflexivity.
Qed.

(** ** The agents that make a single attempt *)

Lemma cerebras_call be s observation w :
  act be (Cerebras s) observation w
  = Outcome
      (inr match be (invocations (events w))
                   (CerebrasAgent.build_request s observation) with
           | inl e => lit "An error occurred: " ++ exn_text e
           | inr raw => strip raw
           end)
      (Cerebras s)
      (World (events w ++ [EvRequest (CerebrasAgent.build_request s observation)])
         (lines w)).
Proof.
  unfold act, run, CerebrasAgent.__call__, try_except, bind, get_self,
    invoke, ret.
  simpl. destruct (be _ _); reflexivity.
Qed.

Lemma hflocal_call_any be s observation w :
  act be (HFLocal s) observation w
  = match str_add (HFLocalAgent.system_prompt s ++ nl) observation with
    | inl e =>
        Outcome (inr (lit "An error occurred: " ++ exn_text e)) (HFLocal s) w
    | inr prompt =>
        Outcome
          (inr match be (invocations (events w))
                       (HFLocalAgent.build_request s prompt) with
               | inl e => lit "An error occurred: " ++ exn_text e
               | inr raw => strip raw
               end)
          (HFLocal s)
          (World (events w ++ [EvRequest (HFLocalAgent.build_request s prompt)])
             (lines w))
    end.
Proof.
  unfold act, run, HFLocalAgent.__call__, HFLocalAgent.concat, try_except,
    bind, get_self, invoke, ret, raise.
  simpl. destruct (str_add _ _) as [e|prompt]; simpl.
  - destruct w. reflexivity.
  - destruct (be _ _); reflexivity.
Qed.

Lemma hflocal_call be s observation w :
  act be (HFLocal s) (PyStr observation) w
  = Outcome
      (inr match be (invocations (events w))
                   (HFLocalAgent.build_request s
                      (PyStr ((HFLocalAgent.system_prompt s ++ nl)
                                ++ observation))) with
           | inl e => lit "An error occurred: " ++ exn_text e
           | inr raw => strip raw
           end)
      (HFLocal s)
      (World (events w
                ++ [EvRequest (HFLocalAgent.build_request s
                                 (PyStr ((HFLocalAgent.system_prompt s ++ nl)
                                           ++ observation)))])
         (lines w)).
Proof. rewrite hflocal_call_any. reflexivity. Qed.

Lemma bedrock_call be s observation w :
  exists tr,
    act be (AWSBedrock s) (PyStr observation) w
    = Outcome
        (inr match be (invocations (events w))
                     (AWSBedrockAgent.build_request s observation) with
             | inl e => error_prefix (AWSBedrock s) ++ exn_text e
             | inr raw => strip raw
             end)
        (AWSBedrock s)
        (World (events w ++ tr) (lines w))
    /\ timeline tr = [Call].
Proof.
  unfold act, run, AWSBedrockAgent.__call__, AWSBedrockAgent._make_request,
    try_except, bind, get_self, invoke, when, print, emit, ret.
  simpl. destruct (be _ _).
  - eexists. split; [rewrite <- !app_assoc; reflexivity|reflexivity].
  - destruct (AWSBedrockAgent.verbose s); simpl; eexists;
      (split; [rewrite <- ?app_assoc; reflexivity|reflexivity]).
Qed.

Lemma human_call be s observation w :
  act be (Human s) observation w
  = match lines w with
    | line :: rest =>
        Outcome (inr line) (Human s)
          (World (events w
                    ++ [EvPrint (nl ++ nl ++ lit "+++ +++ +++");
                        EvInput (lit "Current observations: "
                                   ++ format observation ++ nl
                                   ++ lit "Please enter the action: ")])
             rest)
    | [] =>
        Outcome (inl (EOFError (lit "EOF when reading a line"))) (Human s)
          (World (events w
                    ++ [EvPrint (nl ++ nl ++ lit "+++ +++ +++");
                        EvInput (lit "Current observations: "
                                   ++ format observation ++ nl
                                   ++ lit "Please enter the action: ")])
             [])
    end.
Proof.
  unfold act, run, HumanAgent.__call__, input, bind, print, emit.
  simpl. destruct (lines w); rewrite <- app_assoc; reflexivity.
Qed.

(** One call, its failure turned into a string or its answer trimmed. *)
Lemma single_attempt be a observation w r :
  attempts a = 1%nat ->
  request_of a observation = Some r ->
  exists tr,
    act be a (PyStr observation) w
    = Outcome
        (inr match be (invocations (events w)) r with
             | inl e => error_prefix a ++ exn_text e
             | inr raw => strip raw
             end)
        a (World (events w ++ tr) (lines w))
    /\ timeline tr = [Call].
Proof.
  intros Ha Hr.
  destruct a as [s|s|s|s|s|s|s|s]; try discriminate; injection Hr as <-.
  - eexists. split; [apply hflocal_call|reflexivity].
  - eexists. split; [apply cerebras_call|reflexivity].
  - apply bedrock_call.
Qed.

Lemma single_attempt_converts a :
  attempts a = 1%nat -> converts_failure a.
Proof.
  intros Ha be observation w e Hfail.
  assert (exists r, request_of a observation = Some r) as [r Hr]
    by (destruct a; try discriminate; eexists; reflexivity).
  destruct (single_attempt be a observation w r Ha Hr) as [tr [E T]].
  exists (error_prefix a), tr. rewrite E, Hfail. split; [reflexivity|exact T].
Qed.

(** ** Every call leaves the receiver alone *)

Lemma validating_rejects a : validating a = true -> rejects_non_strings a.
Proof.
  intros Ha be observation w Hobs. destruct w.
  destruct a; try discriminate;
    destruct observation; try discriminate; reflexivity.
Qed.

Lemma act_receiver be a observation w : receiver (act be a observation w) = a.
Proof.
  destruct (retrying a) eqn:Hr.
  - destruct (isinstance_str observation) eqn:Hs.
    + destruct observation as [| | |s|]; try discriminate.
      destruct (retry_frame be a s 3 5 w Hr) as [r [tr E]].
      rewrite act_is_retry in E by exact Hr.
      injection E as ->. reflexivity.
    + rewrite validating_rejects; [reflexivity| |exact Hs].
      destruct a; try discriminate; reflexivity.
  - destruct a as [s|s|s|s|s|s|s|s]; try discriminate.
    + rewrite human_call. destruct (lines w); reflexivity.
    + rewrite hflocal_call_any. destruct (str_add _ _); reflexivity.
    + rewrite cerebras_call. reflexivity.
    + destruct (isinstance_str observation) eqn:Hs.
      * destruct observation as [| | |o|]; try discriminate.
        destruct (bedrock_call be s o w) as [tr [E _]]. rewrite E.
        reflexivity.
      * rewrite validating_rejects; [reflexivity|reflexivity|exact Hs].
Qed.

Lemma broken_fails msg r c n : fails_from (broken msg) r c n.
Proof. intros i _. eexists. reflexivity. Qed.

Lemma flaky_fails n msg text r c m :
  (c + m <= n)%nat -> fails_from (flaky n msg text) r c m.
Proof.
  intros H i Hi. eexists. unfold flaky.
  destruct (Nat.ltb_spec (c + i) n); [reflexivity|lia].
Qed.

Lemma retrying_raises a : retrying a = true -> ~ converts_failure a.
Proof.
  intros Ha Hc.
  destruct (Hc (broken []) [] empty_world (Exn "BackendError" []))
    as [prefix [tr [E _]]]; [reflexivity|].
  destruct (retrying_request a [] Ha) as [r Hr].
  destruct (retry_exhausted (broken []) a [] 3 5 empty_world
              (Exn "BackendError" []) r Ha Hr default_delay_ok)
    as [tr' [E' _]];
    [lia|apply broken_fails|reflexivity|].
  rewrite act_is_retry in E' by exact Ha.
  rewrite E in E'. discriminate.
Qed.

Lemma human_waits_for_nobody s : ~ converts_failure (Human s).
Proof.
  intros Hc.
  destruct (Hc (broken []) [] empty_world (Exn "BackendError" []))
    as [prefix [tr [E _]]]; [reflexivity|].
  rewrite human_call in E. discriminate.
Qed.

(** * The claims *)





(** C3, as the code has it. The five classes that test the type of the
    observation (OpenRouter, Gemini, OpenAI, AWS Bedrock, Anthropic) refuse
    an observation that is not a string with the [ValueError] of the
    source, at once: no call to the backend, no delay, no other event, and
    the receiver is as it was. *)
Theorem non_string_refused_by_validating_agents be a observation w :
  validating a = true ->
  isinstance_str observation = false ->
  act be a observation w = Outcome (inl (not_a_string observation)) a w
  /\ exn_class (not_a_string observation) = "ValueError"%string.
Proof.
  intros Ha Hobs. split; [|reflexivity]. destruct w.
  destruct a; try discriminate;
    destruct observation; try discriminate; reflexivity.
Qed.

Lemma non_string_refused_by_validating_agents_witness :
  act (broken (lit "down")) sample_bedrock (PyInt 5) empty_world
  = Outcome (inl (not_a_string (PyInt 5))) sample_bedrock empty_world
  /\ exn_class (not_a_string (PyInt 5)) = "ValueError"%string.
Proof.
  apply (non_string_refused_by_validating_agents (broken (lit "down"))
           sample_bedrock (PyInt 5) empty_world); reflexivity.
Defined.

(** C3, as stated, fails: the human agent given the integer 5 returns the
    typed line, and the Cerebras agent given the integer 5 sends it to the
    backend and returns the trimmed answer; neither raises. *)
Lemma non_string_accepted_by_human_and_cerebras :
  ~ rejects_non_strings sample_human /\ ~ rejects_non_strings sample_cerebras.
Proof.
  split; intros H.
  - specialize (H (broken []) (PyInt 5) (World [] [lit "move e4"]) eq_refl).
    discriminate H.
  - specialize (H (flaky 0 [] (lit "ok")) (PyInt 5) empty_world eq_refl).
    discriminate H.
Qed.

(** C4, as the code has it. Three classes, not two, turn a failed first
    call into an action: for a string observation the Cerebras, the AWS
    Bedrock and the local Hugging Face agents each make one call, no delay
    and no retry, raise nothing and return a string ending with the text of
    the exception; no other class does. *)
Theorem three_agents_convert_failure a :
  converts_failure a
  <-> kind_of a = KCerebras \/ kind_of a = KAWSBedrock
      \/ kind_of a = KHFLocal.
Proof.
  split.
  - intros Hc.
    destruct a as [s|s|s|s|s|s|s|s]; simpl;
      first [ left; reflexivity
            | right; left; reflexivity
            | right; right; reflexivity
            | exfalso; exact (human_waits_for_nobody s Hc)
            | exfalso; refine (retrying_raises _ _ Hc); reflexivity ].
  - intros H. apply single_attempt_converts.
    destruct a; simpl in H; destruct H as [H|[H|H]]; try discriminate;
      reflexivity.
Qed.

(** C4, as stated, fails: the local Hugging Face agent also converts a
    failure into an action, so the agents that do are not exactly Cerebras
    and AWS Bedrock. *)
Lemma hflocal_is_a_third_converter :
  ~ (forall a, converts_failure a
               <-> kind_of a = KCerebras \/ kind_of a = KAWSBedrock).
Proof.
  intros H. destruct (H sample_hflocal) as [H1 _].
  destruct H1 as [H1|H1]; [|discriminate H1|discriminate H1].
  apply single_attempt_converts. reflexivity.
Qed.

(** C5, as the code has it. OpenRouterAgent, GeminiAgent, and OpenAIAgent
    given no [api_key] argument, fail at construction when their credential
    variable is unset or empty, before any SDK object is built and before
    any call: with the [ImportError] of the source when the package is not
    importable, otherwise with the [ValueError] of the source, which names
    the provider and the variable to set. CerebrasAgent, AWSBedrockAgent
    and AnthropicAgent make no check of their own: once their package is
    imported they call the SDK constructor whatever the environment holds
    (Cerebras passing the value of its variable, [None] when unset), and
    construction fails exactly when that constructor raises, with its
    exception. *)
Theorem construction_without_credential :
  (forall env lib args (v : string),
     checks_credential args = true ->
     credential_variable (class_of args) = Some v ->
     falsy (getenv env v) = true ->
     new env lib args
     = (inl (if installed env (class_of args)
             then key_not_found (provider_of (class_of args)) v
             else package_missing (class_of args)),
        [])
     /\ configuration_error
          (if installed env (class_of args)
           then key_not_found (provider_of (class_of args)) v
           else package_missing (class_of args)))
  /\ (forall env lib args h,
        sdk_call_of env args = Some h ->
        installed env (class_of args) = true ->
        snd (new env lib args) = [EvConstruct h]
        /\ (forall e, lib h = Some e -> fst (new env lib args) = inl e)
        /\ (lib h = None -> exists a, fst (new env lib args) = inr a)).
Proof.
  split.
  - intros env lib args v Hchk Hv Hkey.
    destruct args as [|m p vb kw|m p vb g|m p vb k u kw| | | |];
      try discriminate; simpl in Hv; injection Hv as <-.
    + unfold new, init, OpenRouterAgent.__init__, installed. simpl.
      destruct (importable env "openai");
        destruct (importable env "openai._exceptions"); simpl;
        rewrite ?Hkey;
        (split; [reflexivity|first [left; reflexivity|right; reflexivity]]).
    + unfold new, init, GeminiAgent.__init__, installed. simpl.
      destruct (importable env "google.generativeai"); simpl;
        rewrite ?Hkey;
        (split; [reflexivity|first [left; reflexivity|right; reflexivity]]).
    + destruct k; [discriminate|].
      unfold new, init, OpenAIAgent.__init__, installed, bind. simpl.
      destruct (importable env "openai"); simpl;
        rewrite ?Hkey;
        (split; [reflexivity|first [left; reflexivity|right; reflexivity]]).
  - intros env lib args h Hcall Hinst.
    destruct args; try discriminate; simpl in Hcall; injection Hcall as <-;
      unfold installed in Hinst; simpl in Hinst.
    + unfold new, init, CerebrasAgent.__init__, construct, bind, emit, ret,
        raise.
      destruct (importable env "cerebras.cloud.sdk"); [|discriminate].
      simpl. destruct (lib _); simpl.
      * split; [reflexivity|]. split; [intros e' [= <-]; reflexivity|].
        discriminate.
      * split; [reflexivity|]. split; [discriminate|].
        intros _. eexists. reflexivity.
    + unfold new, init, AWSBedrockAgent.__init__, construct, bind, emit, ret,
        raise.
      destruct (importable env "boto3"); [|discriminate].
      destruct (importable env "botocore.exceptions"); [|discriminate].
      simpl. destruct (lib _); simpl.
      * split; [reflexivity|]. split; [intros e' [= <-]; reflexivity|].
        discriminate.
      * split; [reflexivity|]. split; [discriminate|].
        intros _. eexists. reflexivity.
    + unfold new, init, AnthropicAgent.__init__, construct, bind, emit, ret,
        raise.
      destruct (importable env "anthropic"); [|discriminate].
      simpl. destruct (lib _); simpl.
      * split; [reflexivity|]. split; [intros e' [= <-]; reflexivity|].
        discriminate.
      * split; [reflexivity|]. split; [discriminate|].
        intros _. eexists. reflexivity.
Qed.

Lemma construction_without_credential_witness :
  (new bare_env obliging (NewOpenRouter (lit "gpt-4o") None false ∅)
   = (inl (if installed bare_env KOpenRouter
           then key_not_found "OpenRouter" "OPENROUTER_API_KEY"
           else package_missing KOpenRouter),
      [])
   /\ configuration_error
        (if installed bare_env KOpenRouter
         then key_not_found "OpenRouter" "OPENROUTER_API_KEY"
         else package_missing KOpenRouter))
  /\ (snd (new bare_env obliging
             (NewCerebras (lit "llama3.1-8b") None))
      = [EvConstruct (Cerebras_client None)]
      /\ (forall e,
            obliging (Cerebras_client None) = Some e ->
            fst (new bare_env obliging (NewCerebras (lit "llama3.1-8b") None))
            = inl e)
      /\ (obliging (Cerebras_client None) = None ->
          exists a,
            fst (new bare_env obliging (NewCerebras (lit "llama3.1-8b") None))
            = inr a)).
Proof.
  destruct construction_without_credential as [H1 H2]. split.
  - apply (H1 bare_env obliging
             (NewOpenRouter (lit "gpt-4o") None false ∅)
             "OPENROUTER_API_KEY"%string); reflexivity.
  - apply (H2 bare_env obliging (NewCerebras (lit "llama3.1-8b") None)
             (Cerebras_client None)); reflexivity.
Defined.

(** C5, as stated, fails: in an environment that sets no variable at all,
    AnthropicAgent and AWSBedrockAgent are constructed when the SDK
    constructors return a client, as [anthropic.Anthropic()] and
    [boto3.client(...)] do without a credential; neither constructor of the
    source looks at a credential. *)
Lemma anthropic_and_bedrock_built_without_credentials :
  ~ fails_without_credentials
      (NewAnthropic (lit "claude-3-5-sonnet-20241022")
         (Some STANDARD_GAME_PROMPT) 1000 float_0_9 false)
  /\ ~ fails_without_credentials
        (NewAWSBedrock (lit "anthropic.claude-3-haiku-20240307-v1:0")
           (lit "us-east-1") (Some STANDARD_GAME_PROMPT) false ∅).
Proof.
  split; intros H;
    destruct (H bare_env obliging eq_refl) as [e [tr [E _]]]; discriminate E.
Qed.

(** C6, as the code has it. Whenever a backend agent returns the answer of
    a backend call, the action is that answer with the whitespace at both
    ends removed: it has neither leading nor trailing whitespace, and the
    answer is the action between two runs of whitespace. *)
Theorem successful_answer_is_trimmed be a observation w (k : nat) raw r :
  request_of a observation = Some r ->
  (1 <= k <= attempts a)%nat ->
  fails_from be r (invocations (events w)) (k - 1) ->
  be (invocations (events w) + (k - 1))%nat r = inr raw ->
  returned (act be a (PyStr observation) w) = inr (strip raw)
  /\ surface_trimmed (strip raw)
  /\ exists l t, raw = l ++ strip raw ++ t /\ blank l /\ blank t.
Proof.
  intros Hr Hk Hfail Hok.
  split; [|split; [apply strip_trimmed|apply strip_split]].
  destruct (retrying a) eqn:Ha.
  - assert (attempts a = 3%nat) as Hn
      by (destruct a; try discriminate; reflexivity).
    destruct (retry_success be a observation 3 5 w k raw r Ha Hr
                default_delay_ok)
      as [tr [E _]]; try assumption; try lia.
    rewrite act_is_retry in E by exact Ha. injection E as ->. reflexivity.
  - assert (attempts a = 1%nat) as Hn
      by (destruct a; try discriminate; reflexivity).
    assert (k = 1%nat) by lia. subst k.
    simpl in Hok. rewrite Nat.add_0_r in Hok.
    destruct (single_attempt be a observation w r Hn Hr) as [tr [E _]].
    rewrite E, Hok. reflexivity.
Qed.

Lemma successful_answer_is_trimmed_witness :
  returned (act (flaky 0 [] (lit "  draw ")) sample_cerebras
              (PyStr (lit "board state X")) empty_world)
  = inr (strip (lit "  draw "))
  /\ surface_trimmed (strip (lit "  draw "))
  /\ exists l t,
       lit "  draw " = l ++ strip (lit "  draw ") ++ t /\ blank l /\ blank t.
Proof.
  eapply (successful_answer_is_trimmed (flaky 0 [] (lit "  draw "))
            sample_cerebras (lit "board state X") empty_world 1).
  - reflexivity.
  - simpl. lia.
  - apply flaky_fails. simpl. lia.
  - reflexivity.
Defined.

(** C6, as stated, fails: the human agent returns a typed line that begins
    and ends with a space as it is, and the Cerebras agent returns an error
    message that ends with the space the exception's text ends with. *)
Lemma untrimmed_actions_of_human_and_cerebras :
  ~ always_trimmed sample_human /\ ~ always_trimmed sample_cerebras.
Proof.
  split; intros H.
  - destruct (H (broken []) (PyStr (lit "board state X"))
                (World [] [lit " move e4 "]) (lit " move e4 ") eq_refl)
      as [Hhead _].
    specialize (Hhead 32%N eq_refl). discriminate Hhead.
  - destruct (H (broken (lit "timeout ")) (PyStr (lit "board state X"))
                empty_world (lit "An error occurred: timeout ") eq_refl)
      as [_ Hlast].
    specialize (Hlast 32%N eq_refl). discriminate Hlast.
Qed.



(** C8. The human agent makes no call to a backend and no delay: given a
    line on standard input it returns that line as it was typed, whatever
    the observation is, string or not. *)
Theorem human_returns_typed_line be s observation w line rest :
  lines w = line :: rest ->
  returned (act be (Human s) observation w) = inr line
  /\ timeline (events (after (act be (Human s) observation w)))
     = timeline (events w)
  /\ lines (after (act be (Human s) observation w)) = rest.
Proof.
  intros Hl. rewrite human_call, Hl. cbn [returned after events lines].
  split; [reflexivity|]. split; [|reflexivity].
  rewrite timeline_app. simpl. apply app_nil_r.
Qed.

Lemma human_returns_typed_line_witness :
  returned (act (broken []) sample_human (PyStr (lit "board state X"))
              (World [] [lit "move e4"]))
  = inr (lit "move e4")
  /\ timeline (events (after (act (broken []) sample_human
                                (PyStr (lit "board state X"))
                                (World [] [lit "move e4"]))))
     = timeline (events (World [] [lit "move e4"]))
  /\ lines (after (act (broken []) sample_human
                     (PyStr (lit "board state X"))
                     (World [] [lit "move e4"])))
     = [].
Proof.
  apply (human_returns_typed_line (broken []) HumanAgent.Build
           (PyStr (lit "board state X")) (World [] [lit "move e4"])
           (lit "move e4") []).
  reflexivity.
Defined.

(** C9. A call leaves the agent as it was constructed: every field of the
    receiver (model, system prompt, sampling parameters, verbosity, client
    handle) is the same after the call as before, whatever the observation
    and whatever the backend does, so a second call finds the configuration
    of the first. *)
Theorem call_leaves_configuration be a observation w :
  receiver (act be a observation w) = a
  /\ forall be' observation',
       receiver (act be' (receiver (act be a observation w)) observation'
                   (after (act be a observation w)))
       = a.
Proof.
  split; [apply act_receiver|].
  intros be' observation'. rewrite !act_receiver. reflexivity.
Qed.

(** C10. The local Hugging Face agent, when its one call to the pipeline
    fails, returns "An error occurred: " followed by the text of the
    exception, after that single call and without raising. It does not test
    the type of the observation and raises for none: an observation that is
    not a string and cannot be added to the prompt comes back as the same
    kind of error string, with the text of the [TypeError] of the
    concatenation and without a call, and one that can be added (its type
    has [__radd__]) goes to the pipeline as the result of the addition. So
    it is a third class, besides Cerebras and AWS Bedrock, that turns
    failures into actions. *)
Theorem hflocal_failure_becomes_action be s observation w e :
  be (invocations (events w))
     (HFLocalAgent.build_request s
        (PyStr ((HFLocalAgent.system_prompt s ++ nl) ++ observation)))
  = inl e ->
  (exists tr,
     act be (HFLocal s) (PyStr observation) w
     = Outcome (inr (lit "An error occurred: " ++ exn_text e)) (HFLocal s)
         (World (events w ++ tr) (lines w))
     /\ timeline tr = [Call])
  /\ (forall other,
        exists action, returned (act be (HFLocal s) other w) = inr action)
  /\ (forall other, isinstance_str other = false ->
        match str_add (HFLocalAgent.system_prompt s ++ nl) other with
        | inl e' =>
            act be (HFLocal s) other w
            = Outcome (inr (lit "An error occurred: " ++ exn_text e'))
                (HFLocal s) w
        | inr prompt =>
            events (after (act be (HFLocal s) other w))
            = events w ++ [EvRequest (HFLocalAgent.build_request s prompt)]
        end)
  /\ converts_failure (HFLocal s)
  /\ kind_of (HFLocal s) <> KCerebras
  /\ kind_of (HFLocal s) <> KAWSBedrock.
Proof.
  intros Hbe. repeat split; try discriminate.
  - eexists. rewrite hflocal_call, Hbe. split; reflexivity.
  - intros other. rewrite hflocal_call_any.
    destruct (str_add _ _); eexists; reflexivity.
  - intros other _. rewrite hflocal_call_any.
    destruct (str_add _ _); reflexivity.
  - apply single_attempt_converts. reflexivity.
Qed.

Lemma hflocal_failure_becomes_action_witness :
  (exists tr,
     act (broken (lit "out of memory")) sample_hflocal
       (PyStr (lit "board state X")) empty_world
     = Outcome (inr (lit "An error occurred: " ++ lit "out of memory"))
         sample_hflocal (World (events empty_world ++ tr) (lines empty_world))
     /\ timeline tr = [Call])
  /\ (forall other,
        exists action,
          returned (act (broken (lit "out of memory")) sample_hflocal other
                      empty_world)
          = inr action)
  /\ (forall other, isinstance_str other = false ->
        match str_add (STANDARD_GAME_PROMPT ++ nl) other with
        | inl e' =>
            act (broken (lit "out of memory")) sample_hflocal other
              empty_world
            = Outcome (inr (lit "An error occurred: " ++ exn_text e'))
                sample_hflocal empty_world
        | inr prompt =>
            events (after (act (broken (lit "out of memory")) sample_hflocal
                             other empty_world))
            = events empty_world
                ++ [EvRequest
                      (TextGeneration
                         (HF_pipeline 1024
                            (HF_model (lit "m") false (lit "auto") ∅)
                            (HF_tokenizer (lit "m")))
                         prompt)]
        end)
  /\ converts_failure sample_hflocal
  /\ kind_of sample_hflocal <> KCerebras
  /\ kind_of sample_hflocal <> KAWSBedrock.
Proof.
  apply (hflocal_failure_becomes_action (broken (lit "out of memory"))
           (HFLocalAgent.Build (HF_tokenizer (lit "m"))
              (HF_model (lit "m") false (lit "auto") ∅)
              STANDARD_GAME_PROMPT
              (HF_pipeline 1024 (HF_model (lit "m") false (lit "auto") ∅)
                 (HF_tokenizer (lit "m"))))
           (lit "board state X") empty_world
           (Exn "BackendError" (lit "out of memory"))).
  reflexivity.
Defined.

(** * Further properties of the code *)

(** ** Projections of a trace *)

Lemma requests_app (a b : list event) :
  requests (a ++ b) = requests a ++ requests b.
Proof. apply omap_app. Qed.


Lemma quiet_requests (tr : list event) : timeline tr = [] -> requests tr = [].
Proof.
  induction tr as [|e tr IH]; [reflexivity|].
  destruct e; simpl; intros H; first [discriminate H | exact (IH H)].
Qed.

Lemma strip_fixed (s : str) : surface_trimmed s -> strip s = s.
Proof.
  intros [Hhead Hlast].
  assert (Hl : forall t : str,
             (forall c, head t = Some c -> isspace c = false) ->
             lstrip t = t).
  { intros [|c t] H; [reflexivity|].
    simpl. rewrite (H c eq_refl). reflexivity. }
  assert (Hr : rstrip s = s).
  { unfold rstrip. rewrite Hl; [apply rev_involutive|].
    intros c Hc. apply Hlast. rewrite <- (rev_involutive s), last_rev.
    exact Hc. }
  unfold strip. rewrite Hr. apply Hl. exact Hhead.
Qed.

Lemma lstrip_blank (s : str) : blank s -> lstrip s = [].
Proof.
  induction 1 as [|c s Hc _ IH]; [reflexivity|].
  simpl. rewrite Hc. exact IH.
Qed.

Lemma strip_blank (s : str) : blank s -> strip s = [].
Proof.
  intros H. unfold strip, rstrip.
  rewrite (lstrip_blank (rev s)); [reflexivity|].
  unfold blank in *. rewrite Forall_forall in *.
  intros c Hc. apply H. rewrite list_elem_of_In in *.
  apply in_rev. exact Hc.
Qed.

Lemma schedule_next (d : Z) (j : nat) :
  (1 <= j)%nat -> schedule d (S j) = Call :: Wait d :: schedule d j.
Proof.
  intros Hj. unfold schedule.
  replace (S j - 1)%nat with (S (j - 1)) by lia. reflexivity.
Qed.

(** ** How many attempts a loop makes *)

Lemma attempts_made_spec be r n : forall c,
  (1 <= n)%nat ->
  (1 <= attempts_made be r c n <= n)%nat
  /\ fails_from be r c (attempts_made be r c n - 1)
  /\ ((exists raw, be (c + (attempts_made be r c n - 1))%nat r = inr raw)
      \/ (attempts_made be r c n = n
          /\ exists e, be (c + (attempts_made be r c n - 1))%nat r = inl e)).
Proof.
  induction n as [|n IH]; intros c Hn; [lia|].
  simpl. destruct (be c r) as [e|raw] eqn:Hbe.
  - destruct n as [|n].
    + simpl. split; [lia|]. split; [intros i Hi; lia|].
      right. split; [reflexivity|]. exists e.
      rewrite Nat.add_0_r. exact Hbe.
    + destruct (IH (S c)) as [Hj [Hfail Hlast]]; [lia|].
      set (j := attempts_made be r (S c) (S n)) in *.
      replace (S j - 1)%nat with (S (j - 1)) by lia.
      split; [lia|]. split.
      * intros i Hi. destruct i as [|i].
        -- exists e. rewrite Nat.add_0_r. exact Hbe.
        -- destruct (Hfail i) as [e' He']; [lia|].
           exists e'. rewrite <- He'. f_equal. lia.
      * replace (c + S (j - 1))%nat with (S c + (j - 1))%nat by lia.
        destruct Hlast as [Hok|[Hjn Hbad]]; [left; exact Hok|].
        right. split; [lia|exact Hbad].
  - split; [lia|]. split; [intros i Hi; simpl in Hi; lia|].
    left. exists raw. simpl. rewrite Nat.add_0_r. exact Hbe.
Qed.

(** ** The events of the loop, one by one *)

Section RetryTrace.
Context {O : Type}.
Variable be : backend.
Variable make_request : str -> M O str.
Variable echo : O -> bool.
Variable req : O -> str -> request.
Variable noise : O -> str -> str -> list event.
Variable observation : str.
Variables retries delay : Z.

Hypothesis make_request_spec : forall st,
  make_request observation st
  = match be (invocations (trace st)) (req (self st) observation) with
    | inl e =>
        (inl e,
         State (self st)
           (trace st ++ [EvRequest (req (self st) observation)])
           (stdin st))
    | inr raw =>
        (inr (strip raw),
         State (self st)
           (trace st ++ EvRequest (req (self st) observation)
              :: noise (self st) observation raw)
           (stdin st))
    end.
Hypothesis noise_quiet : forall s raw,
  timeline (noise s observation raw) = [].

Let loop := retry_loop make_request echo observation retries delay.

Lemma loop_ok_exact a rest last st raw :
  be (invocations (trace st)) (req (self st) observation) = inr raw ->
  loop (a :: rest) last st
  = (inr (strip raw),
     State (self st)
       (trace st
          ++ EvRequest (req (self st) observation)
          :: noise (self st) observation raw
          ++ (if echo (self st)
              then [EvPrint (exchange observation (strip raw))]
              else []))
       (stdin st)).
Proof.
  intros Hbe. unfold loop. simpl.
  unfold try_except, bind at 1. rewrite make_request_spec, Hbe.
  unfold bind, get_self, print, when, emit, ret. simpl.
  destruct (echo (self st)); simpl; rewrite <- ?app_assoc;
    rewrite ?app_nil_r; reflexivity.
Qed.

(** Every request of the loop is the same request, whatever the delay. *)
Lemma loop_same_request attempts : forall last st,
  exists res tr,
    loop attempts last st
    = (res, State (self st) (trace st ++ tr) (stdin st))
    /\ Forall (fun r => r = req (self st) observation) (requests tr).
Proof.
  induction attempts as [|a rest IH]; intros last st.
  - unfold loop. simpl. destruct last; unfold raise; destruct st;
      eexists; exists []; rewrite app_nil_r; (split; [reflexivity|constructor]).
  - destruct (be (invocations (trace st)) (req (self st) observation))
      as [e|raw] eqn:Hbe.
    + unfold loop.
      rewrite (loop_fail_general be make_request echo req noise observation
                 retries delay make_request_spec a rest last st e Hbe).
      fold loop.
      destruct (a <? retries); [destruct (sleep_error delay)|].
      * eexists. eexists. split; [reflexivity|]. repeat constructor.
      * match goal with
        | |- context [loop rest (Some e) ?st1] =>
            destruct (IH (Some e) st1) as [res [tr2 [E2 F2]]]
        end.
        cbn [self trace stdin] in E2, F2.
        eexists. eexists. rewrite E2, <- app_assoc.
        split; [reflexivity|].
        rewrite requests_app. apply Forall_app. split; [|exact F2].
        repeat constructor.
      * match goal with
        | |- context [loop rest (Some e) ?st1] =>
            destruct (IH (Some e) st1) as [res [tr2 [E2 F2]]]
        end.
        cbn [self trace stdin] in E2, F2.
        eexists. eexists. rewrite E2, <- app_assoc.
        split; [reflexivity|].
        rewrite requests_app. apply Forall_app. split; [|exact F2].
        repeat constructor.
    + rewrite (loop_ok_exact a rest last st raw Hbe).
      eexists. eexists. split; [reflexivity|].
      change (EvRequest (req (self st) observation)
                :: noise (self st) observation raw
                ++ (if echo (self st)
                    then [EvPrint (exchange observation (strip raw))]
                    else []))
        with ([EvRequest (req (self st) observation)]
                ++ noise (self st) observation raw
                ++ (if echo (self st)
                    then [EvPrint (exchange observation (strip raw))]
                    else [])).
      rewrite !requests_app, (quiet_requests _ (noise_quiet _ _)).
      destruct (echo (self st)); simpl; repeat constructor.
Qed.

(** A delay that [time.sleep] refuses ends the loop at the first failed
    attempt that is not the last: the failure is printed, nothing is slept,
    and what [time.sleep] raises is raised. *)
Lemma loop_delay_refused a rest last st e e' :
  be (invocations (trace st)) (req (self st) observation) = inl e ->
  a < retries ->
  sleep_error delay = Some e' ->
  loop (a :: rest) last st
  = (inl e',
     State (self st)
       (trace st
          ++ [EvRequest (req (self st) observation);
              EvPrint (attempt_failed a e)])
       (stdin st)).
Proof.
  intros Hbe Ha Hs. unfold loop.
  rewrite (loop_fail_general be make_request echo req noise observation
             retries delay make_request_spec a rest last st e Hbe).
  apply Z.ltb_lt in Ha. rewrite Ha, Hs. reflexivity.
Qed.

Hypothesis delay_ok : 0 <= delay <= max_sleep_seconds.


End RetryTrace.

(** ** The retrying classes seen through their single request *)

Lemma retrying_view be a observation :
  retrying a = true ->
  exists (O : Type) (wrap : O -> agent) (s : O) (mk : str -> M O str)
         (echo : O -> bool) (req : O -> str -> request)
         (noise : O -> str -> str -> list event),
    request_of a observation = Some (req s observation)
    /\ (forall st,
          mk observation st
          = match be (invocations (trace st)) (req (self st) observation) with
            | inl e =>
                (inl e,
                 State (self st)
                   (trace st ++ [EvRequest (req (self st) observation)])
                   (stdin st))
            | inr raw =>
                (inr (strip raw),
                 State (self st)
                   (trace st ++ EvRequest (req (self st) observation)
                      :: noise (self st) observation raw)
                   (stdin st))
            end)
    /\ (forall s raw, timeline (noise s observation raw) = [])
    /\ a = wrap s
    /\ forall retries delay w,
         retry be a observation retries delay w
         = Some (run wrap (retry_request mk echo observation retries delay)
                   s w).
Proof.
  intros Ha. destruct a as [s|s|s|s|s|s|s|s]; try discriminate.
  - exists OpenRouterAgent.t, OpenRouter, s,
      (OpenRouterAgent._make_request be), OpenRouterAgent.verbose,
      OpenRouterAgent.build_request, no_noise.
    split; [reflexivity|]. split; [apply openrouter_request|].
    split; [reflexivity|]. split; reflexivity.
  - exists GeminiAgent.t, Gemini, s,
      (GeminiAgent._make_request be), (fun _ => false),
      GeminiAgent.build_request, gemini_noise.
    split; [reflexivity|]. split; [apply gemini_request|].
    split; [intros; apply gemini_noise_quiet|]. split; reflexivity.
  - exists OpenAIAgent.t, OpenAI, s,
      (OpenAIAgent._make_request be), OpenAIAgent.verbose,
      OpenAIAgent.build_request, no_noise.
    split; [reflexivity|]. split; [apply openai_request|].
    split; [reflexivity|]. split; reflexivity.
  - exists AnthropicAgent.t, Anthropic, s,
      (AnthropicAgent._make_request be), AnthropicAgent.verbose,
      AnthropicAgent.build_request, no_noise.
    split; [reflexivity|]. split; [apply anthropic_request|].
    split; [reflexivity|]. split; reflexivity.
Qed.

(** Whatever the backend does, a loop allowed at least one attempt, with a
    delay that [time.sleep] accepts, stops at the first answer or after the
    last attempt. *)
Lemma retry_total be a observation retries delay w r :
  retrying a = true ->
  request_of a observation = Some r ->
  0 <= delay <= max_sleep_seconds ->
  1 <= retries ->
  exists tr,
    retry be a observation retries delay w
    = Some (Outcome
              match be (invocations (events w)
                        + (attempts_made be r (invocations (events w))
                             (Z.to_nat retries) - 1))%nat r with
              | inl e => inl e
              | inr raw => inr (strip raw)
              end
              a (World (events w ++ tr) (lines w)))
    /\ timeline tr
       = schedule delay
           (attempts_made be r (invocations (events w)) (Z.to_nat retries))
    /\ (1 <= attempts_made be r (invocations (events w)) (Z.to_nat retries)
        <= Z.to_nat retries)%nat.
Proof.
  intros Ha Hr Hd HN.
  destruct (attempts_made_spec be r (Z.to_nat retries)
              (invocations (events w))) as [Hj [Hfail Hlast]]; [lia|].
  set (j := attempts_made be r (invocations (events w)) (Z.to_nat retries))
    in *.
  destruct Hlast as [[raw Hok]|[HjN [e He]]].
  - destruct (retry_success be a observation retries delay w j raw r
                Ha Hr Hd) as [tr [E T]]; try assumption; try lia.
    exists tr. rewrite Hok. split; [exact E|]. split; [exact T|exact Hj].
  - destruct (retry_exhausted be a observation retries delay w e r
                Ha Hr Hd HN) as [tr [E T]].
    + rewrite <- HjN. exact Hfail.
    + rewrite <- HjN. exact He.
    + exists tr. rewrite He. split; [exact E|]. split; [|exact Hj].
      rewrite HjN. exact T.
Qed.

Lemma first_answer be a observation w r raw :
  request_of a observation = Some r ->
  be (invocations (events w)) r = inr raw ->
  exists tr,
    act be a (PyStr observation) w
    = Outcome (inr (strip raw)) a (World (events w ++ tr) (lines w))
    /\ timeline tr = [Call].
Proof.
  intros Hr Hok. destruct (retrying a) eqn:Ha.
  - destruct (retry_success be a observation 3 5 w 1 raw r Ha Hr
                default_delay_ok)
      as [tr [E T]]; try lia.
    + intros i Hi. simpl in Hi. lia.
    + simpl. rewrite Nat.add_0_r. exact Hok.
    + rewrite act_is_retry in E by exact Ha. injection E as E.
      exists tr. split; [exact E|exact T].
  - assert (attempts a = 1%nat) as Hn
      by (destruct a; try discriminate; reflexivity).
    destruct (single_attempt be a observation w r Hn Hr) as [tr [E T]].
    exists tr. rewrite E, Hok. split; [reflexivity|exact T].
Qed.

Lemma set_verbose_request b a observation :
  request_of (set_verbose b a) observation = request_of a observation.
Proof. destruct a; reflexivity. Qed.

Lemma sleeps_app (a b : list event) : sleeps (a ++ b) = sleeps a ++ sleeps b.
Proof. apply omap_app. Qed.

Lemma one_call (tr : list event) :
  timeline tr = [Call] -> invocations tr = 1%nat /\ sleeps tr = [].
Proof.
  intros T. rewrite invocations_calls, sleeps_timeline, T.
  split; reflexivity.
Qed.

Lemma scheduled_calls (tr : list event) (d : Z) (j : nat) :
  (1 <= j)%nat -> timeline tr = schedule d j ->
  invocations tr = j /\ sleeps tr = replicate (j - 1) d.
Proof.
  intros Hj T. rewrite invocations_calls, sleeps_timeline, T.
  split; [apply calls_schedule; exact Hj|apply waits_schedule].
Qed.

(** ** The loop for any backend *)



(** X2. One call of any agent, with any observation and any backend, only
    adds to the trace, and what it adds holds at most 3 backend calls for a
    retrying agent, at most 1 for Cerebras, AWS Bedrock and the local
    Hugging Face agent, none for the human agent; the delays it holds are
    one fewer than the calls, each of 5. *)
Theorem calls_per_act_are_bounded be a observation w :
  exists tr,
    events (after (act be a observation w)) = events w ++ tr
    /\ (invocations tr <= attempts a)%nat
    /\ sleeps tr = replicate (invocations tr - 1) 5.
Proof.
  assert (Hnone : forall out : outcome, after out = w ->
            exists tr, events (after out) = events w ++ tr
                       /\ (invocations tr <= attempts a)%nat
                       /\ sleeps tr = replicate (invocations tr - 1) 5).
  { intros out ->. exists []. rewrite app_nil_r.
    split; [reflexivity|]. split; [unfold invocations; simpl; lia|].
    reflexivity. }
  assert (Hone : forall tr, timeline tr = [Call] -> (1 <= attempts a)%nat ->
            (invocations tr <= attempts a)%nat
            /\ sleeps tr = replicate (invocations tr - 1) 5).
  { intros tr T Hle. destruct (one_call tr T) as [-> ->].
    split; [exact Hle|reflexivity]. }
  destruct (isinstance_str observation) eqn:Hs.
  - destruct observation as [| | |s|]; try discriminate.
    destruct (retrying a) eqn:Hr.
    + destruct (retrying_request a s Hr) as [r Hreq].
      destruct (retry_total be a s 3 5 w r Hr Hreq default_delay_ok)
        as [tr [E [T Hj]]]; [lia|].
      rewrite act_is_retry in E by exact Hr. injection E as E.
      exists tr. rewrite E. cbn [after events].
      split; [reflexivity|].
      destruct (scheduled_calls tr 5 _ (proj1 Hj) T) as [-> ->].
      split; [|reflexivity].
      replace (attempts a) with 3%nat
        by (destruct a; try discriminate; reflexivity).
      lia.
    + destruct a as [h|h|h|h|h|h|h|h]; try discriminate.
      * rewrite human_call.
        destruct (lines w); cbn [after events]; eexists;
          (split; [reflexivity|]);
          (split; [unfold invocations; simpl; lia|reflexivity]).
      * rewrite hflocal_call. cbn [after events]. eexists.
        split; [reflexivity|]. apply Hone; [reflexivity|simpl; lia].
      * rewrite cerebras_call. cbn [after events]. eexists.
        split; [reflexivity|]. apply Hone; [reflexivity|simpl; lia].
      * destruct (bedrock_call be h s w) as [tr [E T]]. rewrite E.
        cbn [after events]. exists tr.
        split; [reflexivity|]. apply Hone; [exact T|simpl; lia].
  - destruct (validating a) eqn:Hv.
    + apply Hnone. rewrite (validating_rejects a Hv be observation w Hs).
      reflexivity.
    + destruct a as [h|h|h|h|h|h|h|h]; try discriminate.
      * rewrite human_call.
        destruct (lines w); cbn [after events]; eexists;
          (split; [reflexivity|]);
          (split; [unfold invocations; simpl; lia|reflexivity]).
      * rewrite hflocal_call_any. destruct (str_add _ _).
        -- apply Hnone. reflexivity.
        -- cbn [after events]. eexists.
           split; [reflexivity|]. apply Hone; [reflexivity|simpl; lia].
      * rewrite cerebras_call. cbn [after events]. eexists.
        split; [reflexivity|]. apply Hone; [reflexivity|simpl; lia].
Qed.

(** X3. For each retrying agent, whatever the backend does and however
    many attempts are allowed, every call of the loop sends the same
    request, the one built from the agent's configuration and the
    observation: a retry changes nothing in what is sent. *)
Theorem every_attempt_sends_the_same_request
    be a observation retries delay w r :
  retrying a = true ->
  request_of a observation = Some r ->
  exists out tr,
    retry be a observation retries delay w = Some out
    /\ events (after out) = events w ++ tr
    /\ Forall (fun q => q = r) (requests tr).
Proof.
  intros Ha Hr.
  destruct (retrying_view be a observation Ha)
    as (O & wrap & s & mk & echo & req & noise
        & Hreq & Hspec & Hquiet & _ & Hretry).
  rewrite Hr in Hreq. injection Hreq as ->.
  destruct (loop_same_request be mk echo req noise observation retries delay
              Hspec Hquiet (range 1 (retries + 1)) None
              (State s (events w) (lines w))) as [res [tr [E F]]].
  rewrite Hretry. unfold run, retry_request. rewrite E.
  eexists. exists tr. split; [reflexivity|]. split; [reflexivity|exact F].
Qed.

Lemma every_attempt_sends_the_same_request_witness :
  exists out tr,
    retry (flaky 2 (lit "busy") (lit "e4")) sample_gemini
      (lit "board state X") 3 5 empty_world = Some out
    /\ events (after out) = events empty_world ++ tr
    /\ Forall
         (fun q =>
            q = GenerateContent
                  (Gemini_model (lit "gemini-pro")
                     GeminiAgent.default_generation_config)
                  (lit "Instructions: " ++ STANDARD_GAME_PROMPT ++ nl ++ nl
                     ++ lit "board state X"))
         (requests tr).
Proof.
  apply (every_attempt_sends_the_same_request
           (flaky 2 (lit "busy") (lit "e4")) sample_gemini
           (lit "board state X") 3 5 empty_world).
  - reflexivity.
  - reflexivity.
Defined.



(** X5. The [verbose] flag only prints: for any agent, observation and
    backend, the call on the agent with [verbose] set either way returns
    what the call on the agent itself returns, after the same backend calls
    and delays, and leaves the same lines on standard input. *)
Theorem verbosity_only_prints be a (b : bool) observation w :
  returned (act be (set_verbose b a) observation w)
  = returned (act be a observation w)
  /\ timeline (events (after (act be (set_verbose b a) observation w)))
     = timeline (events (after (act be a observation w)))
  /\ lines (after (act be (set_verbose b a) observation w))
     = lines (after (act be a observation w)).
Proof.
  destruct (isinstance_str observation) eqn:Hs.
  - destruct observation as [| | |s|]; try discriminate.
    destruct (retrying a) eqn:Hr.
    + destruct (retrying_request a s Hr) as [r Hreq].
      assert (Hr' : retrying (set_verbose b a) = true)
        by (destruct a; try discriminate; reflexivity).
      assert (Hreq' : request_of (set_verbose b a) s = Some r)
        by (rewrite set_verbose_request; exact Hreq).
      destruct (retry_total be a s 3 5 w r Hr Hreq default_delay_ok)
        as [tr [E [T _]]]; [lia|].
      destruct (retry_total be (set_verbose b a) s 3 5 w r Hr' Hreq'
                  default_delay_ok)
        as [tr' [E' [T' _]]]; [lia|].
      rewrite act_is_retry in E, E' by assumption.
      injection E as ->. injection E' as ->. cbn [returned after events lines].
      split; [reflexivity|]. split; [|reflexivity].
      rewrite !timeline_app, T, T'. reflexivity.
    + destruct a as [h|h|h|h|h|h|h|h]; try discriminate;
        try (split; [reflexivity|split; reflexivity]).
      destruct (bedrock_call be h s w) as [tr [E T]].
      match goal with
      | |- context [act be (set_verbose b (AWSBedrock h)) _ _] =>
          destruct (bedrock_call be
                      (AWSBedrockAgent.Build (AWSBedrockAgent.model_id h)
                         (AWSBedrockAgent.region_name h)
                         (AWSBedrockAgent.system_prompt h) b
                         (AWSBedrockAgent.kwargs h)
                         (AWSBedrockAgent.client h)) s w) as [tr' [E' T']]
      end.
      unfold set_verbose. rewrite E, E'. cbn [returned after events lines].
      split; [reflexivity|]. split; [|reflexivity].
      rewrite !timeline_app, T, T'. reflexivity.
  - destruct (validating a) eqn:Hv.
    + assert (Hv' : validating (set_verbose b a) = true)
        by (destruct a; try discriminate; reflexivity).
      rewrite (validating_rejects a Hv be observation w Hs),
        (validating_rejects _ Hv' be observation w Hs).
      split; [reflexivity|split; reflexivity].
    + destruct a; try discriminate;
        (split; [reflexivity|split; reflexivity]).
Qed.

(** X6. For each retrying agent, a loop allowed no attempt ([retries] zero
    or negative) raises a [TypeError] at once: nothing is sent to the
    backend and nothing else happens. *)
Theorem no_attempt_allowed_raises_type_error
    be a observation retries delay w :
  retrying a = true -> retries <= 0 ->
  exists e,
    retry be a observation retries delay w = Some (Outcome (inl e) a w)
    /\ exn_class e = "TypeError"%string.
Proof.
  intros Ha HN. eexists. split; [apply retry_none; assumption|reflexivity].
Qed.

Lemma no_attempt_allowed_raises_type_error_witness :
  exists e,
    retry (flaky 0 [] (lit "e4")) sample_openrouter (lit "board state X")
      0 5 empty_world
    = Some (Outcome (inl e) sample_openrouter empty_world)
    /\ exn_class e = "TypeError"%string.
Proof.
  apply (no_attempt_allowed_raises_type_error (flaky 0 [] (lit "e4"))
           sample_openrouter (lit "board state X") 0 5 empty_world).
  - reflexivity.
  - lia.
Defined.

(** X7. The Cerebras agent and the local Hugging Face agent never raise:
    for any observation, string or not, and any backend, the call returns a
    string. *)
Theorem cerebras_and_hflocal_never_raise be a observation w :
  kind_of a = KCerebras \/ kind_of a = KHFLocal ->
  exists action, returned (act be a observation w) = inr action.
Proof.
  intros [H|H]; destruct a as [h|h|h|h|h|h|h|h]; try discriminate.
  - rewrite cerebras_call. eexists. reflexivity.
  - rewrite hflocal_call_any. destruct (str_add _ _); eexists; reflexivity.
Qed.

Lemma cerebras_and_hflocal_never_raise_witness :
  exists action,
    returned (act (broken (lit "down")) sample_cerebras PyNone empty_world)
    = inr action.
Proof.
  apply (cerebras_and_hflocal_never_raise (broken (lit "down"))
           sample_cerebras PyNone empty_world).
  left. reflexivity.
Defined.

(** X8. For every backend agent and string observation, when the first
    call answers with a text that has no whitespace at either end, the
    agent returns that text as it is, after that single call. *)
Theorem clean_answer_returned_verbatim be a observation w r raw :
  request_of a observation = Some r ->
  be (invocations (events w)) r = inr raw ->
  surface_trimmed raw ->
  returned (act be a (PyStr observation) w) = inr raw
  /\ invocations (events (after (act be a (PyStr observation) w)))
     = S (invocations (events w)).
Proof.
  intros Hr Hok Hclean.
  destruct (first_answer be a observation w r raw Hr Hok) as [tr [E T]].
  rewrite E. cbn [returned after events].
  rewrite strip_fixed by exact Hclean. split; [reflexivity|].
  rewrite invocations_app. destruct (one_call tr T) as [-> _]. lia.
Qed.

Lemma clean_answer_returned_verbatim_witness :
  returned (act (flaky 0 [] (lit "move e4")) sample_bedrock
              (PyStr (lit "board state X")) empty_world)
  = inr (lit "move e4")
  /\ invocations (events (after (act (flaky 0 [] (lit "move e4"))
                                   sample_bedrock
                                   (PyStr (lit "board state X"))
                                   empty_world)))
     = S (invocations (events empty_world)).
Proof.
  eapply (clean_answer_returned_verbatim (flaky 0 [] (lit "move e4"))
            sample_bedrock (lit "board state X") empty_world).
  - reflexivity.
  - reflexivity.
  - split; intros c Hc; vm_compute in Hc; injection Hc as <-; reflexivity.
Defined.

(** X9. For every backend agent and string observation, when the first
    call answers with whitespace only, or with the empty text, the agent
    returns the empty string as the action: the empty answer is neither an
    error nor a reason to retry, and a single call is made. *)
Theorem blank_answer_gives_empty_action be a observation w r raw :
  request_of a observation = Some r ->
  be (invocations (events w)) r = inr raw ->
  blank raw ->
  returned (act be a (PyStr observation) w) = inr []
  /\ invocations (events (after (act be a (PyStr observation) w)))
     = S (invocations (events w)).
Proof.
  intros Hr Hok Hblank.
  destruct (first_answer be a observation w r raw Hr Hok) as [tr [E T]].
  rewrite E. cbn [returned after events].
  rewrite strip_blank by exact Hblank. split; [reflexivity|].
  rewrite invocations_app. destruct (one_call tr T) as [-> _]. lia.
Qed.

Lemma blank_answer_gives_empty_action_witness :
  returned (act (flaky 0 [] (lit "  ")) sample_openrouter
              (PyStr (lit "board state X")) empty_world)
  = inr []
  /\ invocations (events (after (act (flaky 0 [] (lit "  "))
                                   sample_openrouter
                                   (PyStr (lit "board state X"))
                                   empty_world)))
     = S (invocations (events empty_world)).
Proof.
  eapply (blank_answer_gives_empty_action (flaky 0 [] (lit "  "))
            sample_openrouter (lit "board state X") empty_world).
  - reflexivity.
  - reflexivity.
  - repeat constructor.
Defined.

(** X10. The inference configuration the AWS Bedrock agent sends holds,
    for every key, the value of [kwargs] when [kwargs] has the key and the
    default otherwise (maxTokens 512, temperature 0.9, topP 0.9). *)
Theorem bedrock_kwargs_override_defaults (s : AWSBedrockAgent.t)
    (observation : str) :
  exists client model_id user system config,
    request_of (AWSBedrock s) observation
    = Some (Converse client model_id user system config)
    /\ forall key : string,
         config !! key
         = match AWSBedrockAgent.kwargs s !! key with
           | Some v => Some v
           | None => bedrock_defaults !! key
           end.
Proof.
  do 5 eexists. split; [reflexivity|].
  intros key. unfold AWSBedrockAgent.inference_config, bedrock_defaults.
  rewrite lookup_union.
  destruct (AWSBedrockAgent.kwargs s !! key);
    destruct (_ !! key); reflexivity.
Qed.

(** ** Construction *)

(** X12. When the packages are not installed, constructing any backend
    agent raises [ImportError] before anything else: whether or not the
    credential is set, no SDK object is built. *)
Theorem missing_package_raises_import_error env lib args :
  class_of args <> KHuman ->
  (forall m, importable env m = false) ->
  exists msg, new env lib args = (inl (ImportError msg), []).
Proof.
  intros Hk Hno.
  destruct args; try (exfalso; apply Hk; reflexivity);
    unfold new, init, OpenRouterAgent.__init__, GeminiAgent.__init__,
      OpenAIAgent.__init__, HFLocalAgent.__init__, CerebrasAgent.__init__,
      AWSBedrockAgent.__init__, AnthropicAgent.__init__;
    rewrite !Hno; simpl; eexists; reflexivity.
Qed.

Lemma missing_package_raises_import_error_witness :
  exists msg,
    new no_packages obliging (NewCerebras (lit "llama3.1-8b") None)
    = (inl (ImportError msg), []).
Proof.
  apply (missing_package_raises_import_error no_packages obliging
           (NewCerebras (lit "llama3.1-8b") None)).
  - discriminate.
  - reflexivity.
Defined.

(** X14. The local Hugging Face agent constructed without [hf_kwargs] (the
    default, [None]) cannot be built: once the tokenizer is loaded, unpacking
    [**hf_kwargs] raises a [TypeError], and neither the model nor the
    pipeline is made. *)
Theorem hflocal_without_kwargs_raises env lib model_name device quantize
    max_new_tokens :
  importable env "transformers" = true ->
  lib (HF_tokenizer model_name) = None ->
  exists e,
    new env lib (NewHFLocal model_name device quantize max_new_tokens None)
    = (inl e, [EvConstruct (HF_tokenizer model_name)])
    /\ exn_class e = "TypeError"%string.
Proof.
  intros Himp Htok.
  unfold new, init, HFLocalAgent.__init__, construct, bind, emit, raise.
  rewrite Himp. simpl. rewrite Htok. simpl.
  eexists. split; reflexivity.
Qed.

Lemma hflocal_without_kwargs_raises_witness :
  exists e,
    new bare_env obliging (NewHFLocal (lit "gpt2") (lit "auto") false 1024 None)
    = (inl e, [EvConstruct (HF_tokenizer (lit "gpt2"))])
    /\ exn_class e = "TypeError"%string.
Proof.
  apply (hflocal_without_kwargs_raises bare_env obliging (lit "gpt2")
           (lit "auto") false 1024); reflexivity.
Defined.

(** X15. An OpenRouter agent, or an OpenAI agent given no [api_key]
    argument, that was constructed holds in its client the value its
    credential variable had in the environment, and that value is not
    empty; one SDK object was built. *)
Theorem constructed_agent_holds_environment_key
    env lib args (v : string) a tr :
  checks_credential args = true ->
  class_of args <> KGemini ->
  credential_variable (class_of args) = Some v ->
  new env lib args = (inr a, tr) ->
  exists key,
    getenv env v = Some key
    /\ key <> []
    /\ api_key_of a = Some key
    /\ length tr = 1%nat.
Proof.
  intros Hchk Hg Hv Hnew.
  destruct args as [|m p vb kw|m p vb g|m p vb k u kw| | | |];
    try discriminate; try (exfalso; apply Hg; reflexivity);
    simpl in Hv; injection Hv as <-;
    try (destruct k; [discriminate|]);
    unfold new, init, OpenRouterAgent.__init__, OpenAIAgent.__init__,
      construct, bind, emit, ret, raise in Hnew;
    destruct (negb _) in Hnew; try discriminate;
    match type of Hnew with
    | context [getenv env ?name] =>
        destruct (getenv env name) as [[|c key]|]; try discriminate
    end;
    simpl in Hnew; destruct (lib _) in Hnew; try discriminate;
    simpl in Hnew; injection Hnew as <- <-;
    exists (c :: key); repeat split; discriminate.
Qed.

Lemma constructed_agent_holds_environment_key_witness :
  exists key,
    getenv (env_with "OPENROUTER_API_KEY" (lit "sk")) "OPENROUTER_API_KEY"
    = Some key
    /\ key <> []
    /\ api_key_of sample_openrouter = Some key
    /\ length [EvConstruct
                 (OpenAI_client (lit "sk")
                    (Some (lit "https://openrouter.ai/api/v1")))]
       = 1%nat.
Proof.
  apply (constructed_agent_holds_environment_key
           (env_with "OPENROUTER_API_KEY" (lit "sk")) obliging
           (NewOpenRouter (lit "gpt-4o") (Some STANDARD_GAME_PROMPT) false ∅)).
  - reflexivity.
  - discriminate.
  - reflexivity.
  - reflexivity.
Defined.

(** X16. For each retrying agent, a negative delay ends the loop at the
    first failed attempt when more than one attempt is allowed: the failure
    is printed, [time.sleep] raises its [ValueError] in the handler, and
    that exception leaves the loop after a single call, without a second
    attempt. *)
Theorem negative_delay_ends_the_loop be a observation retries delay w r e :
  retrying a = true ->
  request_of a observation = Some r ->
  2 <= retries ->
  - max_sleep_seconds <= delay < 0 ->
  be (invocations (events w)) r = inl e ->
  exists e' tr,
    retry be a observation retries delay w
    = Some (Outcome (inl e') a (World (events w ++ tr) (lines w)))
    /\ exn_class e' = "ValueError"%string
    /\ timeline tr = [Call]
    /\ printed tr
       = [lit "Attempt 1 failed with error: " ++ exn_text e].
Proof.
  intros Ha Hr HN Hd Hbe.
  destruct (retrying_view be a observation Ha)
    as (O & wrap & s & mk & echo & req & noise
        & Hreq & Hspec & Hquiet & -> & Hretry).
  rewrite Hr in Hreq. injection Hreq as ->.
  assert (Hs : sleep_error delay
               = Some (ValueError (lit "sleep length must be non-negative"))).
  { unfold sleep_error.
    destruct (Z.ltb_spec delay (- max_sleep_seconds)); [lia|].
    destruct (Z.ltb_spec max_sleep_seconds delay);
      [unfold max_sleep_seconds in *; lia|].
    destruct (Z.ltb_spec delay 0); [reflexivity|lia]. }
  rewrite Hretry. unfold run, retry_request.
  rewrite (range_first 1 (retries + 1)) by lia.
  rewrite (loop_delay_refused be mk echo req noise observation retries delay
             Hspec 1 _ None (State s (events w) (lines w)) e _ Hbe
             ltac:(lia) Hs).
  eexists. eexists. split; [reflexivity|].
  split; [reflexivity|]. split; reflexivity.
Qed.

Lemma negative_delay_ends_the_loop_witness :
  exists e' tr,
    retry (broken (lit "rate limited")) sample_openrouter
      (lit "board state X") 3 (-1) empty_world
    = Some (Outcome (inl e') sample_openrouter
              (World (events empty_world ++ tr) (lines empty_world)))
    /\ exn_class e' = "ValueError"%string
    /\ timeline tr = [Call]
    /\ printed tr
       = [lit "Attempt 1 failed with error: "
            ++ exn_text (Exn "BackendError" (lit "rate limited"))].
Proof.
  eapply (negative_delay_ends_the_loop (broken (lit "rate limited"))
            sample_openrouter (lit "board state X") 3 (-1) empty_world).
  - reflexivity.
  - reflexivity.
  - lia.
  - unfold max_sleep_seconds. lia.
  - reflexivity.
Defined.
